(** * Flashbots MEV executor: detect, estimate, build, submit

    A shallow embedding of [src/flashbots.ts] (class [FlashbotsMEVExecutor])
    and the properties of its scan / estimate / build / submit pipeline.

    Conventions of the embedding:
    - amounts ([bigint] wei quantities, as [ethers.parseEther] returns them
      and as line 198 multiplies them by [BigInt(5)]) are [Z]; the [bigint]
      division [/] truncates toward zero and is [Z.quot];
    - reading a property of [undefined], calling a method a value does not
      have and applying [in] to a value that is not an object throw a
      [TypeError];
    - block heights and nonces (JS numbers holding integers) are [Z];
    - strings are [string]; [null] / [undefined] is [None];
    - a JS exception is the [Throw] constructor of [result];
    - the chain client, the wallet and the relay are records of replies,
      and every effect of a method (log line, RPC, signing request, bundle
      sent, inclusion wait) is recorded in the trace of a [World];
    - the logger does not fail.

    The file has three parts: the embedding of the code, the vocabulary of
    the statements with the concrete runs used as examples, and the
    properties. *)

From Stdlib Require Import ZArith List String Ascii Bool Lia.
Import ListNotations.

Local Open Scope Z_scope.

(** ** Outcomes of JS computations *)

Inductive result (A : Type) : Type :=
| Ok (a : A)
| Throw (e : string).

Arguments Ok {A} a.
Arguments Throw {A} e.

(** ** Unit conversion: [ethers.formatEther], [ethers.parseEther],
       [ethers.parseUnits]

    The library functions the executor calls, modelled on character lists:
    a wei amount is rendered as [whole "." fraction] with the fraction cut
    after its last nonzero digit (one digit at least), and a decimal string
    [-?digits* .? digits*] is read back by padding the fraction with zeros
    to the unit's number of decimals; a string of another form, or with
    nonzero digits beyond the unit's decimals, is rejected.  Amounts are
    unbounded here: the library's 512-bit range check is never reached by
    256-bit chain quantities. *)

Module Units.

Definition digitChar (d : Z) : ascii := ascii_of_nat (48 + Z.to_nat d).

Definition isDigit (c : ascii) : bool :=
  let n := nat_of_ascii c in ((48 <=? n) && (n <=? 57))%nat.

Definition charDigit (c : ascii) : Z := Z.of_nat (nat_of_ascii c - 48).

(** The [w] least significant decimal digits of [n], most significant first. *)
Fixpoint digitsOf (w : nat) (n : Z) : list Z :=
  match w with
  | O => []
  | S w' => digitsOf w' (n / 10) ++ [n mod 10]
  end.

Definition valueOf (ds : list Z) : Z :=
  fold_left (fun acc d => 10 * acc + d) ds 0.

(** Drop leading zeros, leaving one digit at least. *)
Fixpoint trimLeft (ds : list Z) : list Z :=
  match ds with
  | [] => []
  | d :: rest =>
      match rest with
      | [] => [d]
      | _ :: _ => if d =? 0 then trimLeft rest else ds
      end
  end.

Definition trimRight (ds : list Z) : list Z := rev (trimLeft (rev ds)).

(** Decimal digits of a non-negative integer, as [BigInt.prototype.toString]. *)
Definition decimal (n : Z) : list Z :=
  trimLeft (digitsOf (S (Z.to_nat (Z.log2 n))) n).

Definition minus : ascii := "-"%char.
Definition dot : ascii := "."%char.
Definition zero : ascii := "0"%char.

(** [String(n)] for an integer [n]. *)
Definition toString (n : Z) : string :=
  string_of_list_ascii
    ((if n <? 0 then [minus] else []) ++ map digitChar (decimal (Z.abs n))).

(** The characters of a non-negative amount [v] with [decimals] decimals. *)
Definition magnitude (v : Z) (decimals : nat) : list ascii :=
  let whole := decimal (v / 10 ^ Z.of_nat decimals) in
  let frac := trimRight (digitsOf decimals (v mod 10 ^ Z.of_nat decimals)) in
  map digitChar whole
    ++ match decimals with
       | O => []
       | S _ => dot :: map digitChar frac
       end.

Definition formatUnits (value : Z) (decimals : nat) : string :=
  string_of_list_ascii
    ((if value <? 0 then [minus] else []) ++ magnitude (Z.abs value) decimals).

Fixpoint span (p : ascii -> bool) (cs : list ascii) : list ascii * list ascii :=
  match cs with
  | [] => ([], [])
  | c :: rest =>
      if p c then let (a, b) := span p rest in (c :: a, b) else ([], cs)
  end.

Definition stripSign (cs : list ascii) : bool * list ascii :=
  match cs with
  | c :: rest => if Ascii.eqb c minus then (true, rest) else (false, cs)
  | [] => (false, [])
  end.

Definition stripDot (cs : list ascii) : list ascii :=
  match cs with
  | c :: rest => if Ascii.eqb c dot then rest else cs
  | [] => []
  end.

Definition parseMagnitude (cs : list ascii) (decimals : nat) : result Z :=
  let (whole, cs2) := span isDigit cs in
  let dec := stripDot cs2 in
  if negb (forallb isDigit dec) || (List.length whole + List.length dec =? 0)%nat
  then Throw "invalid FixedNumber string value"
  else
    let padded := dec ++ repeat zero (decimals - List.length dec) in
    if negb (forallb (Ascii.eqb zero) (skipn decimals padded))
    then Throw "too many decimals for format"
    else Ok (valueOf (map charDigit (whole ++ firstn decimals padded))).

Definition parseUnits (s : string) (decimals : nat) : result Z :=
  let (neg, cs1) := stripSign (list_ascii_of_string s) in
  match parseMagnitude cs1 decimals with
  | Ok v => Ok (if neg then - v else v)
  | Throw e => Throw e
  end.

Definition ether : nat := 18.
Definition gwei : nat := 9.

Definition formatEther (wei : Z) : string := formatUnits wei ether.
Definition parseEther (s : string) : result Z := parseUnits s ether.

End Units.

(** ** JS values used by the executor *)

Definition lowerChar (c : ascii) : ascii :=
  let n := nat_of_ascii c in
  if ((65 <=? n) && (n <=? 90))%nat then ascii_of_nat (n + 32) else c.

(** [String.prototype.toLowerCase] on the ASCII text of an address. *)
Fixpoint toLowerCase (s : string) : string :=
  match s with
  | EmptyString => EmptyString
  | String c rest => String (lowerChar c) (toLowerCase rest)
  end.

(** [Array.prototype.includes] on strings. *)
Definition includes (xs : list string) (x : string) : bool :=
  existsb (String.eqb x) xs.

(** ['0'.repeat(n)] *)
Fixpoint repeatString (s : string) (n : nat) : string :=
  match n with
  | O => EmptyString
  | S n' => (s ++ repeatString s n')%string
  end.

(** Truthiness: an absent value, the empty string and [0n] are falsy. *)
Definition truthyString (s : option string) : option string :=
  match s with
  | Some t => if (t =? EmptyString)%string then None else Some t
  | None => None
  end.

Definition truthyBigInt (v : option Z) : option Z :=
  match v with
  | Some n => if n =? 0 then None else Some n
  | None => None
  end.

(** ** Data model *)

Record TransactionResponse := {
  tx_hash : string;
  tx_from : string;
  tx_to : option string;
  tx_value : option Z;
  tx_data : string
}.

Inductive OpportunityType := sandwich | arbitrage | liquidation.

Record MEVOpportunity := {
  opp_type : OpportunityType;
  profit : string;
  opp_transactions : list TransactionResponse;
  targetBlock : Z;
  targetTxValue : option Z
}.

Record TransactionRequest := {
  req_to : string;
  req_data : string;
  gasLimit : Z;
  maxPriorityFeePerGas : Z;
  maxFeePerGas : Z;
  req_value : Z;
  chainId : Z;
  req_from : string;
  nonce : Z
}.

(** A signed transaction carries the request it was signed from. *)
Record SignedTransaction := {
  signed_request : TransactionRequest;
  signature : string
}.

Record BundleRequest := {
  transactions : list SignedTransaction;
  blockNumber : Z
}.

Record FeeData := {
  fee_maxFeePerGas : option Z;
  fee_maxPriorityFeePerGas : option Z
}.

(** An element of the pending block as the node sends it: a JSON object
    whose quantities are hexadecimal strings. *)
Record RawTransaction := {
  raw_hash : string;
  raw_from : string;
  raw_to : option string;
  raw_value : string;
  raw_input : string
}.

Record PendingBlock := {
  pb_transactions : option (list RawTransaction)
}.

(** What the inclusion wait resolves with: an object that confirms the
    inclusion with a block number, an object that reports an error, or a
    value that is not an object (the relay client's numeric resolution
    code). *)
Inductive WaitResponse :=
| Inclusion (blockNumber : Z)
| ErrorCondition (error : string)
| ResolutionCode (code : Z).

(** [waitResponse.error] and [waitResponse.blockNumber]; a property a value
    does not have reads as [undefined]. *)
Definition wr_error (r : WaitResponse) : option string :=
  match r with
  | ErrorCondition e => Some e
  | _ => None
  end.

Definition wr_blockNumber (r : WaitResponse) : option Z :=
  match r with
  | Inclusion n => Some n
  | _ => None
  end.

(** ** Collaborators *)

(** The chain client: the reply to an RPC depends on when it is issued
    (the [nat] is the number of RPCs issued before it). *)
Record Provider := {
  blockNumberReply : nat -> result Z;
  transactionCountReply : string -> nat -> result Z;
  feeDataReply : nat -> result FeeData;
  pendingBlockReply : nat -> result (option PendingBlock)
}.

Record Wallet := {
  address : string;
  signatureOf : TransactionRequest -> result string
}.

Record Submission := {
  waitReply : result WaitResponse
}.

Record Relay := {
  sendBundleReply : list SignedTransaction -> Z -> result Submission
}.

Record FlashbotsMEVExecutor := {
  provider : Provider;
  flashbotsProvider : Relay;
  wallet : Wallet
}.

(** ** Effects *)

Inductive Level := info | error.

Inductive RpcMethod :=
| eth_blockNumber
| eth_getTransactionCount (account : string)
| eth_feeData
| eth_getBlockByNumber_pending.

Inductive Event :=
| Logged (level : Level) (message : string) (meta : option string)
| Rpc (method : RpcMethod)
| SignRequested (request : TransactionRequest)
| BundleSent (txs : list SignedTransaction) (target : Z)
| InclusionAwaited.

Record World := {
  clock : nat;
  trace : list Event
}.

Definition emit (e : Event) (w : World) : World :=
  {| clock := clock w; trace := trace w ++ [e] |}.

Definition tick (e : Event) (w : World) : World :=
  {| clock := S (clock w); trace := trace w ++ [e] |}.

Definition M (A : Type) : Type := World -> result A * World.

Definition ret {A} (a : A) : M A := fun w => (Ok a, w).

Definition bind {A B} (m : M A) (k : A -> M B) : M B :=
  fun w =>
    match m w with
    | (Ok a, w') => k a w'
    | (Throw e, w') => (Throw e, w')
    end.

Definition liftResult {A} (r : result A) : M A := fun w => (r, w).

Definition tryCatch {A} (body : M A) (handler : string -> M A) : M A :=
  fun w =>
    match body w with
    | (Ok a, w') => (Ok a, w')
    | (Throw e, w') => handler e w'
    end.

Declare Scope js_scope.
Delimit Scope js_scope with js.
Notation "x <- c1 ;; c2" := (bind c1 (fun x => c2))
  (at level 61, c1 at next level, right associativity) : js_scope.
Notation "c1 ;; c2" := (bind c1 (fun _ => c2))
  (at level 61, right associativity) : js_scope.
Local Open Scope js_scope.

Definition log (lvl : Level) (message : string) (meta : option string) : M unit :=
  fun w => (Ok tt, emit (Logged lvl message meta) w).

Definition rpc {A} (m : RpcMethod) (reply : nat -> result A) : M A :=
  fun w => (reply (clock w), tick (Rpc m) w).

Definition getBlockNumber (p : Provider) : M Z :=
  rpc eth_blockNumber (blockNumberReply p).

Definition getTransactionCount (p : Provider) (account : string) : M Z :=
  rpc (eth_getTransactionCount account) (transactionCountReply p account).

Definition getFeeData (p : Provider) : M FeeData :=
  rpc eth_feeData (feeDataReply p).

Definition getPendingBlock (p : Provider) : M (option PendingBlock) :=
  rpc eth_getBlockByNumber_pending (pendingBlockReply p).

Definition formatterError : string :=
  "TypeError: Cannot read properties of undefined (reading 'transactionResponse')".

(** [this.provider.formatter.transactionResponse(txData)] (line 166).  The
    provider is the [ethers.JsonRpcProvider] built at line 28, which has no
    property [formatter]: reading [transactionResponse] of [undefined]
    throws, whatever [txData] is. *)
Definition transactionResponse (txData : RawTransaction)
  : result TransactionResponse :=
  Throw formatterError.

Definition gtError : string := "TypeError: tx.value.gt is not a function".

(** [value.gt(other)] (line 193).  [value] is the [bigint] that line 198
    multiplies by [BigInt(5)]; a [bigint] has no method [gt], the call
    throws. *)
Definition gt (value other : Z) : result bool := Throw gtError.

(** ['error' in waitResponse] (line 63): the [in] operator throws on a value
    that is not an object. *)
Definition hasError (r : WaitResponse) : result bool :=
  match r with
  | Inclusion _ => Ok false
  | ErrorCondition _ => Ok true
  | ResolutionCode code =>
      Throw ("TypeError: Cannot use 'in' operator to search for 'error' in "
             ++ Units.toString code)%string
  end.

Definition signTransaction (k : Wallet) (request : TransactionRequest)
  : M SignedTransaction :=
  fun w =>
    (match signatureOf k request with
     | Ok sg => Ok {| signed_request := request; signature := sg |}
     | Throw e => Throw e
     end,
     emit (SignRequested request) w).

Definition sendBundle (r : Relay) (txs : list SignedTransaction) (target : Z)
  : M Submission :=
  fun w => (sendBundleReply r txs target, emit (BundleSent txs target) w).

Definition wait (s : Submission) : M WaitResponse :=
  fun w => (waitReply s, emit InclusionAwaited w).

(** [a || b] on an optional [bigint]: [b] is evaluated only when [a] is falsy. *)
Definition orElse (a : option Z) (b : result Z) : M Z :=
  match truthyBigInt a with
  | Some v => ret v
  | None => liftResult b
  end.

(** [`${n}`] for a number that may be [undefined]. *)
Definition showNumber (n : option Z) : string :=
  match n with
  | Some v => Units.toString v
  | None => "undefined"
  end.

(** ** The executor's methods *)

Definition UNISWAP_V2_ROUTER : string :=
  "0x7a250d5630B4cF539739dF2C5dAcb4c659F2488D".

Definition UNISWAP_V3_ROUTER : string :=
  "0xE592427A0AEce92De3Edee1F18E0157C05861564".

Definition placeholderData : string :=
  ("0x12345678" ++ repeatString "0" 56)%string.

Definition executeBundle (x : FlashbotsMEVExecutor) (bundleRequest : BundleRequest)
  : M bool :=
  tryCatch
    (let targetBlock := blockNumber bundleRequest in
     log info ("Submitting bundle for block "
               ++ Units.toString targetBlock ++ "...")%string None ;;
     submission <- sendBundle (flashbotsProvider x)
                     (transactions bundleRequest) targetBlock ;;
     waitResponse <- wait submission ;;
     failed <- liftResult (hasError waitResponse) ;;
     if failed : bool then
       log error "Bundle failed to be included or reverted:"
         (wr_error waitResponse) ;;
       ret false
     else
       log info ("MEV Bundle successfully included in block "
                 ++ showNumber (wr_blockNumber waitResponse))%string None ;;
       ret true)
    (fun e =>
       log error "Bundle execution failed:" (Some e) ;;
       ret false).

Definition frontRunRequest (k : Wallet) (priority maxFee amountIn initialNonce : Z)
  : TransactionRequest :=
  {| req_to := UNISWAP_V2_ROUTER;
     req_data := placeholderData;
     gasLimit := 300000;
     maxPriorityFeePerGas := priority;
     maxFeePerGas := maxFee;
     req_value := amountIn;
     chainId := 1;
     req_from := address k;
     nonce := initialNonce |}.

Definition backRunRequest (k : Wallet) (priority maxFee initialNonce : Z)
  : TransactionRequest :=
  {| req_to := UNISWAP_V2_ROUTER;
     req_data := placeholderData;
     gasLimit := 300000;
     maxPriorityFeePerGas := priority;
     maxFeePerGas := maxFee;
     req_value := 0;
     chainId := 1;
     req_from := address k;
     nonce := initialNonce + 1 |}.

Definition createSandwichBundle (x : FlashbotsMEVExecutor)
    (opportunity : MEVOpportunity) : M (option BundleRequest) :=
  tryCatch
    (match truthyBigInt (targetTxValue opportunity) with
     | None =>
         log error "Cannot create bundle: Missing target transaction value."
           None ;;
         ret None
     | Some targetValue =>
         currentBlock <- getBlockNumber (provider x) ;;
         let nextBlock := currentBlock + 1 in
         initialNonce <- getTransactionCount (provider x) (address (wallet x)) ;;
         netProfit <- liftResult (Units.parseEther (profit opportunity)) ;;
         let minerTip := Z.quot netProfit 2 in
         log info ("Calculated Net Profit: " ++ profit opportunity
                   ++ " ETH. Tipping: " ++ Units.formatEther minerTip
                   ++ " ETH.")%string None ;;
         let frontRunAmountIn := Z.quot targetValue 10 in
         feeData <- getFeeData (provider x) ;;
         priority <- orElse (fee_maxPriorityFeePerGas feeData)
                       (Units.parseUnits "3" Units.gwei) ;;
         baseFee <- orElse (fee_maxFeePerGas feeData)
                      (Units.parseUnits "50" Units.gwei) ;;
         let maxFeePerGasWithTip := baseFee + minerTip in
         let frontRunTx :=
           frontRunRequest (wallet x) priority maxFeePerGasWithTip
             frontRunAmountIn initialNonce in
         let backRunTx :=
           backRunRequest (wallet x) priority maxFeePerGasWithTip
             initialNonce in
         signedFrontRunTx <- signTransaction (wallet x) frontRunTx ;;
         signedBackRunTx <- signTransaction (wallet x) backRunTx ;;
         ret (Some {| transactions := [signedFrontRunTx; signedBackRunTx];
                      blockNumber := nextBlock |})
     end)
    (fun e =>
       log error "Failed to create dynamic sandwich bundle:" (Some e) ;;
       ret None).

Definition dexAddresses : list string :=
  map toLowerCase [UNISWAP_V2_ROUTER; UNISWAP_V3_ROUTER].

(** The body of the [try] block of [analyzeTransaction], for a transaction
    with recipient [to]. *)
Definition analyzeBody (x : FlashbotsMEVExecutor) (tx : TransactionResponse)
    (to : string) : M (option MEVOpportunity) :=
  match (if includes dexAddresses (toLowerCase to)
         then truthyBigInt (tx_value tx) else None) with
  | Some targetValue =>
      threshold <- liftResult (Units.parseEther "0.05") ;;
      above <- liftResult (gt targetValue threshold) ;;
      if above : bool then
        let arbitraryProfitBN := Z.quot (targetValue * 5) 100 in
        let arbitraryProfit := Units.formatEther arbitraryProfitBN in
        log info ("Potential Sandwich found for Tx: " ++ tx_hash tx
                  ++ ", Calculated Profit: " ++ arbitraryProfit
                  ++ " ETH")%string None ;;
        currentBlock <- getBlockNumber (provider x) ;;
        ret (Some {| opp_type := sandwich;
                     profit := arbitraryProfit;
                     opp_transactions := [tx];
                     targetBlock := currentBlock + 1;
                     targetTxValue := Some targetValue |})
      else ret None
  | None => ret None
  end.

Definition analyzeTransaction (x : FlashbotsMEVExecutor)
    (tx : option TransactionResponse) : M (option MEVOpportunity) :=
  match tx with
  | None => ret None
  | Some t =>
      match truthyString (tx_to t) with
      | None => ret None
      | Some to =>
          tryCatch (analyzeBody x t to)
            (fun e =>
               log error "Transaction analysis failed:" (Some e) ;;
               ret None)
      end
  end.

(** The [for] loop of [scanMEVOpportunities] over the sliced batch, with the
    array [opportunities] it pushes to; the second component is the exception
    that left the loop, if any. *)
Fixpoint scanLoop (x : FlashbotsMEVExecutor) (txs : list RawTransaction)
    (opportunities : list MEVOpportunity)
  : M (list MEVOpportunity * option string) :=
  match txs with
  | [] => ret (opportunities, None)
  | txData :: rest =>
      fun w =>
        match (tx <- liftResult (transactionResponse txData) ;;
               analyzeTransaction x (Some tx)) w with
        | (Ok (Some opportunity), w') =>
            scanLoop x rest (opportunities ++ [opportunity]) w'
        | (Ok None, w') => scanLoop x rest opportunities w'
        | (Throw e, w') => (Ok (opportunities, Some e), w')
        end
  end.

(** [opportunities] starts empty; an exception of the fetch or of the loop
    is caught and logged, and the array is returned as it is then. *)
Definition scanMEVOpportunities (x : FlashbotsMEVExecutor)
  : M (list MEVOpportunity) :=
  fun w =>
    match getPendingBlock (provider x) w with
    | (Throw e, w') =>
        (log error "MEV scanning failed:" (Some e) ;; ret []) w'
    | (Ok pendingBlock, w') =>
        match match pendingBlock with
              | Some b => pb_transactions b
              | None => None
              end with
        | Some txs =>
            (r <- scanLoop x (firstn 10 txs) [] ;;
             match snd r with
             | Some e =>
                 log error "MEV scanning failed:" (Some e) ;; ret (fst r)
             | None => ret (fst r)
             end) w'
        | None => ret [] w'
        end
    end.

(** The class method [initializeFlashbots]: [create] is the answer of
    [FlashbotsBundleProvider.create] for the executor's provider and wallet;
    the relay client it returns is what the method stores in
    [this.flashbotsProvider].  A failure is logged and thrown again. *)
Definition initializeFlashbots (create : result Relay) : M Relay :=
  tryCatch
    (r <- liftResult create ;;
     log info "Flashbots provider initialized" None ;;
     ret r)
    (fun e =>
       log error "Failed to initialize Flashbots:" (Some e) ;;
       liftResult (Throw e)).

(** ** The application module

    The module that imports [FlashbotsMEVExecutor]: the global
    [flashbotsExecutor], the start-up function [initializeFlashbots] and the
    scan scheduler [mevScanLoop].  Its logger and its timers are recorded in
    a journal of their own.  A call of [mevScanLoop] runs to its end before
    anything else of the module runs: the module does nothing after starting
    it, and a timer fires only when the runtime is idle. *)

Module Application.

Inductive AppLevel := app_info | app_warn | app_error.

Inductive AppEvent :=
| AppLogged (level : AppLevel) (message : string) (meta : option string)
| TimerArmed (delay : Z).

(** The global [flashbotsExecutor]: [null], an executor whose relay client is
    not set yet, or an executor after [initializeFlashbots]. *)
Inductive ExecutorSlot :=
| NoExecutor
| Constructed (p : Provider) (k : Wallet)
| Initialized (x : FlashbotsMEVExecutor).

(** What the module is started with: the environment variables, the
    executor's constructor (which opens the wallet and may reject the key)
    and the creation of the relay client. *)
Record Platform := {
  WALLET_PRIVATE_KEY : option string;
  ETHEREUM_RPC_1 : option string;
  newExecutor : string -> string -> result (Provider * Wallet);
  createRelay : Provider -> Wallet -> result Relay
}.

Record AppState := {
  world : World;
  journal : list AppEvent;
  timers : list Z;
  flashbotsExecutor : ExecutorSlot
}.

Definition AppM (A : Type) : Type := AppState -> result A * AppState.

Definition aret {A} (v : A) : AppM A := fun a => (Ok v, a).

Definition abind {A B} (m : AppM A) (k : A -> AppM B) : AppM B :=
  fun a =>
    match m a with
    | (Ok v, a') => k v a'
    | (Throw e, a') => (Throw e, a')
    end.

Definition atry {A} (body : AppM A) (handler : string -> AppM A) : AppM A :=
  fun a =>
    match body a with
    | (Ok v, a') => (Ok v, a')
    | (Throw e, a') => handler e a'
    end.

Declare Scope app_scope.
Delimit Scope app_scope with app.
Notation "x <- c1 ;; c2" := (abind c1 (fun x => c2))
  (at level 61, c1 at next level, right associativity) : app_scope.
Notation "c1 ;; c2" := (abind c1 (fun _ => c2))
  (at level 61, right associativity) : app_scope.
Local Open Scope app_scope.

(** Run a method of the executor. *)
Definition call {A} (m : M A) : AppM A :=
  fun a =>
    let (r, w') := m (world a) in
    (r, {| world := w'; journal := journal a; timers := timers a;
           flashbotsExecutor := flashbotsExecutor a |}).

Definition liftR {A} (r : result A) : AppM A := fun a => (r, a).

Definition logger (lvl : AppLevel) (message : string) (meta : option string)
  : AppM unit :=
  fun a =>
    (Ok tt, {| world := world a;
               journal := journal a ++ [AppLogged lvl message meta];
               timers := timers a;
               flashbotsExecutor := flashbotsExecutor a |}).

(** [setTimeout(mevScanLoop, delay)] *)
Definition setTimeout (delay : Z) : AppM unit :=
  fun a =>
    (Ok tt, {| world := world a;
               journal := journal a ++ [TimerArmed delay];
               timers := timers a ++ [delay];
               flashbotsExecutor := flashbotsExecutor a |}).

Definition assign (slot : ExecutorSlot) : AppM unit :=
  fun a =>
    (Ok tt, {| world := world a; journal := journal a; timers := timers a;
               flashbotsExecutor := slot |}).

Definition MEV_SCAN_INTERVAL : Z := 5000.

(** A relay client that is not set: calling it throws. *)
Definition unsetRelay : Relay :=
  {| sendBundleReply := fun _ _ =>
       Throw "TypeError: Cannot read properties of undefined (reading 'sendBundle')" |}.

(** The object the global refers to, if any. *)
Definition executorOf (slot : ExecutorSlot) : option FlashbotsMEVExecutor :=
  match slot with
  | NoExecutor => None
  | Constructed p k =>
      Some {| provider := p; flashbotsProvider := unsetRelay; wallet := k |}
  | Initialized x => Some x
  end.

(** The [try] block of [mevScanLoop]. *)
Definition cycle (x : FlashbotsMEVExecutor) : AppM unit :=
  opportunities <- call (scanMEVOpportunities x) ;;
  match opportunities with
  | [] => aret tt
  | firstOpportunity :: _ =>
      logger app_info
        ("Found " ++ Units.toString (Z.of_nat (List.length opportunities))
         ++ " MEV opportunities.")%string None ;;
      match opp_type firstOpportunity with
      | sandwich =>
          let profit := profit firstOpportunity in
          logger app_info
            ("Attempting sandwich execution for Target Tx with calculated profit "
             ++ profit ++ " ETH.")%string None ;;
          bundleRequest <- call (createSandwichBundle x firstOpportunity) ;;
          match bundleRequest with
          | Some b =>
              success <- call (executeBundle x b) ;;
              if success : bool then
                logger app_info
                  ("MEV Bundle submitted and included successfully for profit: "
                   ++ profit ++ " ETH!")%string None
              else
                logger app_warn
                  "MEV Bundle submission failed after simulation/execution." None
          | None => logger app_warn "Failed to create sandwich bundle." None
          end
      | _ => aret tt
      end
  end.

Definition mevScanLoop : AppM unit :=
  fun a =>
    match executorOf (flashbotsExecutor a) with
    | None => (Ok tt, a)
    | Some x =>
        (atry (cycle x)
           (fun e => logger app_error "Error during MEV scan loop:" (Some e)) ;;
         setTimeout MEV_SCAN_INTERVAL) a
    end.

Definition placeholderKey : string := "your_private_key_here".

Definition defaultRpcUrl : string :=
  "https://eth-mainnet.g.alchemy.com/v2/demo".

(** The module's [initializeFlashbots]. *)
Definition initializeFlashbots (pf : Platform) : AppM unit :=
  atry
    (let privateKey := WALLET_PRIVATE_KEY pf in
     let rpcUrl :=
       match truthyString (ETHEREUM_RPC_1 pf) with
       | Some url => url
       | None => defaultRpcUrl
       end in
     match (match truthyString privateKey with
            | Some key => if (key =? placeholderKey)%string then None else Some key
            | None => None
            end) with
     | Some key =>
         made <- liftR (newExecutor pf rpcUrl key) ;;
         let (p, k) := made : Provider * Wallet in
         assign (Constructed p k) ;;
         r <- call (initializeFlashbots (createRelay pf p k)) ;;
         assign (Initialized {| provider := p; flashbotsProvider := r;
                                wallet := k |}) ;;
         logger app_info "Flashbots MEV executor initialized" None ;;
         mevScanLoop
     | None =>
         logger app_warn
           "Flashbots MEV disabled - no valid private key provided. Set WALLET_PRIVATE_KEY."
           None
     end)
    (fun e => logger app_error "Failed to initialize Flashbots MEV:" (Some e)).

(** The runtime fires the oldest armed timer by calling [mevScanLoop]. *)
Definition fireTimer : AppM unit :=
  fun a =>
    match timers a with
    | [] => (Ok tt, a)
    | _ :: rest =>
        mevScanLoop {| world := world a; journal := journal a; timers := rest;
                       flashbotsExecutor := flashbotsExecutor a |}
    end.

Fixpoint runTimers (n : nat) : AppM unit :=
  match n with
  | O => aret tt
  | S n' => fireTimer ;; runTimers n'
  end.

End Application.

(** * Vocabulary of the statements *)

(** A decimal digit. *)
Definition isDecimalDigit (d : Z) : Prop := 0 <= d < 10.

(** ** Constants of the executor *)

Definition threshold : Z := 50000000000000000.
Definition floorPriorityFee : Z := 3000000000.
Definition defaultMaxFee : Z := 50000000000.

(** The value of [a || d]. *)
Definition fallback (a : option Z) (d : Z) : Z :=
  match truthyBigInt a with
  | Some v => v
  | None => d
  end.

(** The events a computation added to the trace. *)
Definition newEvents (before after : World) : list Event :=
  skipn (List.length (trace before)) (trace after).

(** ** The builder *)

(** The line the builder logs about the tip. *)
Definition tipLogMessage (o : MEVOpportunity) (minerTip : Z) : string :=
  ("Calculated Net Profit: " ++ profit o ++ " ETH. Tipping: "
   ++ Units.formatEther minerTip ++ " ETH.")%string.

(** ** The submitter

    The relay confirmed the inclusion: the bundle was accepted for sending
    and the inclusion wait resolved with an answer that has no [error] field
    and carries a block number. *)
Definition confirmedInclusion (x : FlashbotsMEVExecutor) (b : BundleRequest)
  : Prop :=
  exists s r n,
    sendBundleReply (flashbotsProvider x) (transactions b) (blockNumber b) = Ok s
    /\ waitReply s = Ok r
    /\ wr_error r = None
    /\ wr_blockNumber r = Some n.

(** ** The estimator and the scanner *)

Definition allowList : list string := [UNISWAP_V2_ROUTER; UNISWAP_V3_ROUTER].

(** The recipient is one of the routers, up to letter case. *)
Definition allowListed (to : string) : Prop :=
  exists a, In a allowList /\ toLowerCase to = toLowerCase a.

(** The transaction is a candidate: allow-listed recipient and a value above
    0.05 ETH. *)
Definition passesFilter (t : TransactionResponse) (V : Z) : Prop :=
  exists to,
    tx_to t = Some to /\ allowListed to /\ tx_value t = Some V /\ V > threshold.

(** The transaction is left out: its recipient is absent or not on the
    allow-list, or its value is absent or at most 0.05 ETH. *)
Definition excluded (t : TransactionResponse) : Prop :=
  (forall to, tx_to t = Some to -> ~ allowListed to)
  \/ (forall v, tx_value t = Some v -> v <= threshold).

(** The value the condition of [analyzeTransaction] compares with the
    threshold: the tests before the comparison passed (a recipient, on the
    list, and a value that is not [0n]). *)
Definition comparedValue (t : TransactionResponse) : option Z :=
  match truthyString (tx_to t) with
  | Some to =>
      if includes dexAddresses (toLowerCase to)
      then truthyBigInt (tx_value t) else None
  | None => None
  end.

(** The line the estimator logs when the comparison throws. *)
Definition analysisFailedLine : Event :=
  Logged error "Transaction analysis failed:" (Some gtError).

(** The line the scanner logs when the conversion of a pending transaction
    throws. *)
Definition scanFailedLine : Event :=
  Logged error "MEV scanning failed:" (Some formatterError).

(** The lines a scan logs after its query: the failure of the query, or the
    failure of the conversion when the pending block lists a transaction. *)
Definition scanLines (x : FlashbotsMEVExecutor) (w : World) : list Event :=
  match pendingBlockReply (provider x) (clock w) with
  | Throw e => [Logged error "MEV scanning failed:" (Some e)]
  | Ok None => []
  | Ok (Some b) =>
      match pb_transactions b with
      | Some (_ :: _) => [scanFailedLine]
      | _ => []
      end
  end.

(** ** Effects of a computation

    Running [m] only appends events, and every appended event satisfies [Q]. *)
Definition emitsOnly {A} (Q : Event -> Prop) (m : M A) : Prop :=
  forall w, exists evs, trace (snd (m w)) = trace w ++ evs /\ Forall Q evs.

Definition missingValueMessage : string :=
  "Cannot create bundle: Missing target transaction value.".

(** The events [createSandwichBundle] can add for the opportunity [o]. *)
Definition builderEvent (o : MEVOpportunity) (ev : Event) : Prop :=
  match ev with
  | Rpc _ => True
  | SignRequested _ => True
  | Logged info _ None => True
  | Logged error msg None =>
      msg = missingValueMessage /\ truthyBigInt (targetTxValue o) = None
  | Logged error msg (Some _) =>
      msg = "Failed to create dynamic sandwich bundle:"%string
  | _ => False
  end.

(** ** What a run did

    The bundles handed to the relay, the signing requests, the RPCs and the
    inclusion waits among a list of events, in order. *)

Definition bundlesSent (evs : list Event)
  : list (list SignedTransaction * Z) :=
  flat_map (fun ev => match ev with
                      | BundleSent txs target => [(txs, target)]
                      | _ => []
                      end) evs.

Definition signRequests (evs : list Event) : list TransactionRequest :=
  flat_map (fun ev => match ev with
                      | SignRequested request => [request]
                      | _ => []
                      end) evs.

Definition rpcs (evs : list Event) : list RpcMethod :=
  flat_map (fun ev => match ev with
                      | Rpc method => [method]
                      | _ => []
                      end) evs.

Definition inclusionWaits (evs : list Event) : nat :=
  List.length (filter (fun ev => match ev with
                                 | InclusionAwaited => true
                                 | _ => false
                                 end) evs).

(** The events the scanner and the estimator can add. *)
Definition scannerEvent (ev : Event) : Prop :=
  match ev with
  | Logged _ _ _ => True
  | Rpc _ => True
  | _ => False
  end.

(** An event of a run that only scans: a log line or a pending-block
    query. *)
Definition scanOnlyEvent (ev : Event) : Prop :=
  match ev with
  | Logged _ _ _ => True
  | Rpc method => method = eth_getBlockByNumber_pending
  | _ => False
  end.

(** The chain client answers every query the same way whenever it is asked. *)
Definition stationary (p : Provider) : Prop :=
  forall k k',
    blockNumberReply p k = blockNumberReply p k'
    /\ (forall account,
           transactionCountReply p account k = transactionCountReply p account k')
    /\ feeDataReply p k = feeDataReply p k'.

(** ** The scheduler *)

(** The application state [a] with the chain and relay side in state [w] and
    [lines] added to the journal. *)
Definition inWorld (a : Application.AppState) (w : World)
    (lines : list Application.AppEvent) : Application.AppState :=
  {| Application.world := w;
     Application.journal := Application.journal a ++ lines;
     Application.timers := Application.timers a;
     Application.flashbotsExecutor := Application.flashbotsExecutor a |}.

(** The chain and relay side after one cycle started in [w]: the scan, then
    the build for the first opportunity found, then the submission of the
    bundle built. *)
Definition cycleWorld (x : FlashbotsMEVExecutor) (w : World) : World :=
  match scanMEVOpportunities x w with
  | (Ok (o :: _), w1) =>
      match createSandwichBundle x o w1 with
      | (Ok (Some b), w2) => snd (executeBundle x b w2)
      | (_, w2) => w2
      end
  | (_, w1) => w1
  end.

Definition isLogLine (ev : Application.AppEvent) : Prop :=
  match ev with
  | Application.AppLogged _ _ _ => True
  | Application.TimerArmed _ => False
  end.

(** The timers armed among the events of a journal. *)
Definition timersArmed (evs : list Application.AppEvent) : list Z :=
  flat_map (fun ev => match ev with
                      | Application.TimerArmed delay => [delay]
                      | _ => []
                      end) evs.

(** The private key the start-up accepts: present, not empty and not the
    value of the sample configuration. *)
Definition usableKey (pf : Application.Platform) : option string :=
  match truthyString (Application.WALLET_PRIVATE_KEY pf) with
  | Some key =>
      if (key =? Application.placeholderKey)%string then None else Some key
  | None => None
  end.

(** The RPC URL the start-up uses. *)
Definition rpcUrlOf (pf : Application.Platform) : string :=
  match truthyString (Application.ETHEREUM_RPC_1 pf) with
  | Some url => url
  | None => Application.defaultRpcUrl
  end.

Definition disabledLine : Application.AppEvent :=
  Application.AppLogged Application.app_warn
    "Flashbots MEV disabled - no valid private key provided. Set WALLET_PRIVATE_KEY."
    None.

Definition startFailedLine (e : string) : Application.AppEvent :=
  Application.AppLogged Application.app_error
    "Failed to initialize Flashbots MEV:" (Some e).


(** * Concrete runs *)

(** ** A concrete run: one allow-listed transfer of 1 ETH

    Chain head 100, account nonce 7, suggested fees 1 gwei (priority) and
    30 gwei (max fee); the wallet signs everything. *)

Module Scenario.

Definition ETH : Z := 1000000000000000000.
Definition GWEI : Z := 1000000000.

Definition fees : FeeData :=
  {| fee_maxFeePerGas := Some (30 * GWEI);
     fee_maxPriorityFeePerGas := Some GWEI |}.

Definition target : TransactionResponse :=
  {| tx_hash := "0x01";
     tx_from := "0x00000000000000000000000000000000000000f1";
     tx_to := Some UNISWAP_V2_ROUTER;
     tx_value := Some ETH;
     tx_data := "0x" |}.

(** The same transfer sent to the V3 router, written in lower case. *)
Definition targetV3 : TransactionResponse :=
  {| tx_hash := "0x02";
     tx_from := "0x00000000000000000000000000000000000000f2";
     tx_to := Some "0xe592427a0aece92de3edee1f18e0157c05861564"%string;
     tx_value := Some (2 * ETH);
     tx_data := "0x" |}.

(** The two transfers as the node lists them in the pending block. *)
Definition rawTarget : RawTransaction :=
  {| raw_hash := "0x01";
     raw_from := "0x00000000000000000000000000000000000000f1";
     raw_to := Some UNISWAP_V2_ROUTER;
     raw_value := "0xde0b6b3a7640000";
     raw_input := "0x" |}.

Definition rawTargetV3 : RawTransaction :=
  {| raw_hash := "0x02";
     raw_from := "0x00000000000000000000000000000000000000f2";
     raw_to := Some "0xe592427a0aece92de3edee1f18e0157c05861564"%string;
     raw_value := "0x1bc16d674ec80000";
     raw_input := "0x" |}.

Definition pending : PendingBlock :=
  {| pb_transactions := Some [rawTarget; rawTargetV3] |}.

Definition chain : Provider :=
  {| blockNumberReply := fun _ => Ok 100;
     transactionCountReply := fun _ _ => Ok 7;
     feeDataReply := fun _ => Ok fees;
     pendingBlockReply := fun _ => Ok (Some pending) |}.

Definition signer : Wallet :=
  {| address := "0x00000000000000000000000000000000000000aa";
     signatureOf := fun _ => Ok "0xsigned"%string |}.

(** A relay that accepts every bundle and confirms its inclusion in the
    block it was sent for. *)
Definition relay : Relay :=
  {| sendBundleReply := fun _ target =>
       Ok {| waitReply := Ok (Inclusion target) |} |}.

Definition executor : FlashbotsMEVExecutor :=
  {| provider := chain; flashbotsProvider := relay; wallet := signer |}.

Definition start : World := {| clock := 0; trace := [] |}.

Definition opportunity : MEVOpportunity :=
  {| opp_type := sandwich;
     profit := "0.05";
     opp_transactions := [target];
     targetBlock := 101;
     targetTxValue := Some ETH |}.

Definition opportunityV3 : MEVOpportunity :=
  {| opp_type := sandwich;
     profit := "0.1";
     opp_transactions := [targetV3];
     targetBlock := 101;
     targetTxValue := Some (2 * ETH) |}.

Definition sign (r : TransactionRequest) : SignedTransaction :=
  {| signed_request := r; signature := "0xsigned" |}.

(** Tip 0.025 ETH on top of 30 gwei; front-run value 0.1 ETH. *)
Definition front : SignedTransaction :=
  sign (frontRunRequest signer GWEI (30 * GWEI + 25000000000000000)
          100000000000000000 7).

Definition back : SignedTransaction :=
  sign (backRunRequest signer GWEI (30 * GWEI + 25000000000000000) 7).

Definition bundle : BundleRequest :=
  {| transactions := [front; back]; blockNumber := 101 |}.

Definition frontV3 : SignedTransaction :=
  sign (frontRunRequest signer GWEI (30 * GWEI + 50000000000000000)
          200000000000000000 7).

Definition backV3 : SignedTransaction :=
  sign (backRunRequest signer GWEI (30 * GWEI + 50000000000000000) 7).

Definition bundleV3 : BundleRequest :=
  {| transactions := [frontV3; backV3]; blockNumber := 101 |}.

End Scenario.

(** ** Concrete runs with failures *)

Module Outage.

(** A chain client that answers nothing. *)
Definition down : Provider :=
  {| blockNumberReply := fun _ => Throw "network down";
     transactionCountReply := fun _ _ => Throw "network down";
     feeDataReply := fun _ => Throw "network down";
     pendingBlockReply := fun _ => Throw "network down" |}.

Definition offline : FlashbotsMEVExecutor :=
  {| provider := down;
     flashbotsProvider := Scenario.relay;
     wallet := Scenario.signer |}.

(** A chain client whose second answer is lost. *)
Definition flakyChain : Provider :=
  {| blockNumberReply := fun k =>
       if Nat.eqb k 1 then Throw "network down" else Ok 100;
     transactionCountReply := fun _ _ => Ok 7;
     feeDataReply := fun _ => Ok Scenario.fees;
     pendingBlockReply := fun _ => Ok None |}.

Definition flaky : FlashbotsMEVExecutor :=
  {| provider := flakyChain;
     flashbotsProvider := Scenario.relay;
     wallet := Scenario.signer |}.

(** A wallet that cannot sign. *)
Definition locked : Wallet :=
  {| address := "0x00000000000000000000000000000000000000aa";
     signatureOf := fun _ => Throw "signing error" |}.

Definition unsigned : FlashbotsMEVExecutor :=
  {| provider := Scenario.chain;
     flashbotsProvider := Scenario.relay;
     wallet := locked |}.

(** An opportunity without the target transaction's value. *)
Definition unsized : MEVOpportunity :=
  {| opp_type := sandwich;
     profit := "0.05";
     opp_transactions := [Scenario.target];
     targetBlock := 101;
     targetTxValue := None |}.

(** An allow-listed transfer of 0.04 ETH, below the threshold. *)
Definition small : TransactionResponse :=
  {| tx_hash := "0x04";
     tx_from := "0x00000000000000000000000000000000000000f4";
     tx_to := Some UNISWAP_V2_ROUTER;
     tx_value := Some 40000000000000000;
     tx_data := "0x" |}.

End Outage.

(** ** Concrete runs of the application *)

Module Deployment.

(** A configured deployment: a key, no RPC URL, a wallet that opens and a
    relay that can be created. *)
Definition platform : Application.Platform :=
  {| Application.WALLET_PRIVATE_KEY := Some "0xkey"%string;
     Application.ETHEREUM_RPC_1 := None;
     Application.newExecutor := fun _ _ => Ok (Scenario.chain, Scenario.signer);
     Application.createRelay := fun _ _ => Ok Scenario.relay |}.

(** The key left at the value of the sample configuration. *)
Definition sample : Application.Platform :=
  {| Application.WALLET_PRIVATE_KEY := Some "your_private_key_here"%string;
     Application.ETHEREUM_RPC_1 := None;
     Application.newExecutor := fun _ _ => Ok (Scenario.chain, Scenario.signer);
     Application.createRelay := fun _ _ => Ok Scenario.relay |}.

(** The relay client cannot be created. *)
Definition noRelay : Application.Platform :=
  {| Application.WALLET_PRIVATE_KEY := Some "0xkey"%string;
     Application.ETHEREUM_RPC_1 := None;
     Application.newExecutor := fun _ _ => Ok (Scenario.chain, Scenario.signer);
     Application.createRelay := fun _ _ => Throw "relay unreachable" |}.

Definition boot : Application.AppState :=
  {| Application.world := Scenario.start;
     Application.journal := [];
     Application.timers := [];
     Application.flashbotsExecutor := Application.NoExecutor |}.

(** The scheduler between two cycles. *)
Definition waiting : Application.AppState :=
  {| Application.world := Scenario.start;
     Application.journal := [Application.TimerArmed 5000];
     Application.timers := [5000];
     Application.flashbotsExecutor := Application.Initialized Scenario.executor |}.

End Deployment.

(** * Properties *)

(** ** Round trip of the unit conversion *)

Section UnitsFacts.
Import Units.

Lemma digit_cases (d : Z) :
  isDecimalDigit d ->
  d = 0 \/ d = 1 \/ d = 2 \/ d = 3 \/ d = 4 \/
  d = 5 \/ d = 6 \/ d = 7 \/ d = 8 \/ d = 9.
Proof. unfold isDecimalDigit. lia. Qed.

Ltac each_digit d H :=
  destruct (digit_cases d H) as
    [->|[->|[->|[->|[->|[->|[->|[->|[->| ->]]]]]]]]].

Lemma charDigit_digitChar (d : Z) :
  isDecimalDigit d -> charDigit (digitChar d) = d.
Proof. intros H. each_digit d H; reflexivity. Qed.

Lemma isDigit_digitChar (d : Z) :
  isDecimalDigit d -> isDigit (digitChar d) = true.
Proof. intros H. each_digit d H; reflexivity. Qed.

Lemma digitChar_not_minus (d : Z) :
  isDecimalDigit d -> Ascii.eqb (digitChar d) minus = false.
Proof. intros H. each_digit d H; reflexivity. Qed.

Lemma digitsOf_length (w : nat) : forall n, List.length (digitsOf w n) = w.
Proof.
  induction w as [|w IH]; intros n; simpl; [reflexivity|].
  rewrite length_app, IH. simpl. lia.
Qed.

Lemma digitsOf_digits (w : nat) :
  forall n, Forall isDecimalDigit (digitsOf w n).
Proof.
  induction w as [|w IH]; intros n; simpl; [constructor|].
  apply Forall_app. split; [apply IH|].
  constructor; [|constructor].
  unfold isDecimalDigit. apply Z.mod_pos_bound. lia.
Qed.

Lemma valueOf_from (ds : list Z) :
  forall a,
    fold_left (fun acc d => 10 * acc + d) ds a
    = a * 10 ^ Z.of_nat (List.length ds) + valueOf ds.
Proof.
  unfold valueOf.
  induction ds as [|d ds IH]; intros a.
  - simpl. lia.
  - cbn [fold_left List.length]. rewrite IH, (IH (10 * 0 + d)).
    rewrite Nat2Z.inj_succ, Z.pow_succ_r by lia. ring.
Qed.

Lemma valueOf_app (xs ys : list Z) :
  valueOf (xs ++ ys) = valueOf xs * 10 ^ Z.of_nat (List.length ys) + valueOf ys.
Proof.
  unfold valueOf at 1. rewrite fold_left_app.
  fold (valueOf xs). apply valueOf_from.
Qed.

Lemma valueOf_digitsOf (w : nat) :
  forall n, valueOf (digitsOf w n) = n mod 10 ^ Z.of_nat w.
Proof.
  induction w as [|w IH]; intros n.
  - simpl. rewrite Z.mod_1_r. reflexivity.
  - cbn [digitsOf]. rewrite valueOf_app, IH. cbn [List.length].
    change (valueOf [n mod 10]) with (10 * 0 + n mod 10).
    change (10 ^ Z.of_nat 1) with 10.
    rewrite Nat2Z.inj_succ, Z.pow_succ_r by lia.
    rewrite Z.rem_mul_r by lia. ring.
Qed.

Lemma trimLeft_zeros (ds : list Z) :
  exists k, ds = repeat 0 k ++ trimLeft ds.
Proof.
  induction ds as [|d ds IH].
  - exists O. reflexivity.
  - cbn [trimLeft]. destruct ds as [|e ds'].
    + exists O. reflexivity.
    + destruct (Z.eqb_spec d 0) as [->|_].
      * destruct IH as [k Hk]. exists (S k). cbn [repeat app].
        rewrite <- Hk. reflexivity.
      * exists O. reflexivity.
Qed.

Lemma valueOf_zeros (k : nat) (ds : list Z) :
  valueOf (repeat 0 k ++ ds) = valueOf ds.
Proof.
  induction k as [|k IH]; [reflexivity|].
  cbn [repeat app]. unfold valueOf in *. cbn [fold_left]. exact IH.
Qed.

Lemma valueOf_trimLeft (ds : list Z) : valueOf (trimLeft ds) = valueOf ds.
Proof.
  destruct (trimLeft_zeros ds) as [k Hk].
  rewrite Hk at 2. symmetry. apply valueOf_zeros.
Qed.

Lemma trimLeft_digits (ds : list Z) :
  Forall isDecimalDigit ds -> Forall isDecimalDigit (trimLeft ds).
Proof.
  intros H. destruct (trimLeft_zeros ds) as [k Hk].
  rewrite Hk in H. apply Forall_app in H. apply H.
Qed.

Lemma trimLeft_nonempty (ds : list Z) : ds <> [] -> trimLeft ds <> [].
Proof.
  induction ds as [|d ds IH]; [congruence|]. intros _.
  cbn [trimLeft]. destruct ds as [|e ds']; [discriminate|].
  destruct (d =? 0); [apply IH|]; discriminate.
Qed.

Lemma trimRight_zeros (ds : list Z) :
  exists k, ds = trimRight ds ++ repeat 0 k.
Proof.
  unfold trimRight. destruct (trimLeft_zeros (rev ds)) as [k Hk].
  exists k. apply (f_equal (@rev Z)) in Hk.
  rewrite rev_involutive, rev_app_distr, rev_repeat in Hk. exact Hk.
Qed.

Lemma trimRight_digits (ds : list Z) :
  Forall isDecimalDigit ds -> Forall isDecimalDigit (trimRight ds).
Proof.
  intros H. destruct (trimRight_zeros ds) as [k Hk].
  rewrite Hk in H. apply Forall_app in H. apply H.
Qed.

Lemma pow10_gt (n : Z) :
  0 <= n -> n < 10 ^ Z.of_nat (S (Z.to_nat (Z.log2 n))).
Proof.
  intros Hn.
  rewrite Nat2Z.inj_succ, Z2Nat.id by apply Z.log2_nonneg.
  destruct (Z.eq_dec n 0) as [->|Hz].
  - reflexivity.
  - assert (Hlt : n < 2 ^ Z.succ (Z.log2 n)) by (apply Z.log2_spec; lia).
    assert (Hle : 2 ^ Z.succ (Z.log2 n) <= 10 ^ Z.succ (Z.log2 n)).
    { apply Z.pow_le_mono_l. lia. }
    lia.
Qed.

Lemma decimal_digits (n : Z) : Forall isDecimalDigit (decimal n).
Proof. apply trimLeft_digits, digitsOf_digits. Qed.

Lemma decimal_nonempty (n : Z) : decimal n <> [].
Proof.
  apply trimLeft_nonempty. intros H.
  apply (f_equal (@List.length Z)) in H. rewrite digitsOf_length in H.
  discriminate.
Qed.

Lemma valueOf_decimal (n : Z) : 0 <= n -> valueOf (decimal n) = n.
Proof.
  intros Hn. unfold decimal.
  rewrite valueOf_trimLeft, valueOf_digitsOf.
  apply Z.mod_small. split; [exact Hn | apply pow10_gt; exact Hn].
Qed.

Lemma map_charDigit_digitChar (ds : list Z) :
  Forall isDecimalDigit ds -> map charDigit (map digitChar ds) = ds.
Proof.
  induction 1 as [|d ds Hd _ IH]; [reflexivity|].
  cbn [map]. rewrite charDigit_digitChar, IH by exact Hd. reflexivity.
Qed.

Lemma forallb_isDigit_digitChar (ds : list Z) :
  Forall isDecimalDigit ds -> forallb isDigit (map digitChar ds) = true.
Proof.
  induction 1 as [|d ds Hd _ IH]; [reflexivity|].
  cbn [map forallb]. rewrite isDigit_digitChar, IH by exact Hd. reflexivity.
Qed.

Lemma span_digitChar (ds : list Z) (rest : list ascii) :
  Forall isDecimalDigit ds ->
  span isDigit rest = ([], rest) ->
  span isDigit (map digitChar ds ++ rest) = (map digitChar ds, rest).
Proof.
  intros Hds Hrest.
  induction Hds as [|d ds Hd _ IH]; [exact Hrest|].
  cbn [map app span]. rewrite isDigit_digitChar, IH by exact Hd. reflexivity.
Qed.

Lemma map_digitChar_zeros (k : nat) :
  map digitChar (repeat 0 k) = repeat zero k.
Proof. induction k as [|k IH]; [reflexivity|]. cbn. rewrite IH. reflexivity. Qed.

(** Cutting the trailing zeros of a fixed-width fraction and padding it again
    gives the fraction back. *)
Lemma pad_trimRight (w : nat) (n : Z) :
  let frac := map digitChar (trimRight (digitsOf w n)) in
  frac ++ repeat zero (w - List.length frac) = map digitChar (digitsOf w n).
Proof.
  intros frac. subst frac.
  destruct (trimRight_zeros (digitsOf w n)) as [k Hk].
  assert (Hlen : List.length (digitsOf w n) = w) by apply digitsOf_length.
  rewrite Hk in Hlen at 1. rewrite length_app, repeat_length in Hlen.
  rewrite length_map.
  replace (w - List.length (trimRight (digitsOf w n)))%nat with k by lia.
  rewrite Hk at 2. rewrite map_app, map_digitChar_zeros. reflexivity.
Qed.

Lemma parseMagnitude_magnitude (v : Z) (d : nat) :
  0 <= v -> parseMagnitude (magnitude v d) d = Ok v.
Proof.
  intros Hv. unfold parseMagnitude, magnitude.
  set (p := 10 ^ Z.of_nat d).
  assert (Hp : 0 < p) by (apply Z.pow_pos_nonneg; lia).
  set (W := decimal (v / p)).
  assert (HW : Forall isDecimalDigit W) by apply decimal_digits.
  assert (HWv : valueOf W = v / p).
  { apply valueOf_decimal. apply Z.div_pos; lia. }
  assert (HWne : (List.length (map digitChar W) + 0 <> 0)%nat).
  { rewrite length_map. pose proof (decimal_nonempty (v / p)) as Hne.
    fold W in Hne. destruct W; [congruence | simpl; lia]. }
  destruct d as [|d'].
  - rewrite span_digitChar by (exact HW || reflexivity).
    cbn [stripDot forallb negb orb List.length].
    destruct (Nat.eqb_spec (List.length (map digitChar W) + 0) 0) as [E|_];
      [contradiction|].
    cbn [repeat Nat.sub app skipn firstn forallb negb].
    rewrite app_nil_r, map_charDigit_digitChar, HWv by exact HW.
    subst p. cbn. rewrite Z.div_1_r. reflexivity.
  - set (F := trimRight (digitsOf (S d') (v mod p))).
    assert (HF : Forall isDecimalDigit F) by apply trimRight_digits, digitsOf_digits.
    rewrite span_digitChar by (exact HW || reflexivity).
    change (stripDot (dot :: map digitChar F)) with (map digitChar F).
    rewrite forallb_isDigit_digitChar by exact HF. cbn [negb orb].
    destruct (Nat.eqb_spec
                (List.length (map digitChar W)
                 + List.length (map digitChar F)) 0) as [E|_]; [lia|].
    unfold F. rewrite pad_trimRight.
    assert (Hlen : List.length (map digitChar (digitsOf (S d') (v mod p))) = S d').
    { rewrite length_map. apply digitsOf_length. }
    rewrite skipn_all2 by lia. cbn [forallb negb].
    rewrite firstn_all2 by lia.
    rewrite <- map_app, map_charDigit_digitChar
      by (apply Forall_app; split; [exact HW | apply digitsOf_digits]).
    rewrite valueOf_app, HWv, digitsOf_length, valueOf_digitsOf.
    fold p. rewrite Z.mod_mod by lia.
    pose proof (Z.div_mod v p) as Hdm. f_equal. lia.
Qed.

Lemma stripSign_magnitude (v : Z) (d : nat) :
  stripSign (magnitude v d) = (false, magnitude v d).
Proof.
  unfold magnitude.
  pose proof (decimal_nonempty (v / 10 ^ Z.of_nat d)) as Hne.
  pose proof (decimal_digits (v / 10 ^ Z.of_nat d)) as Hds.
  destruct (decimal (v / 10 ^ Z.of_nat d)) as [|c W]; [congruence|].
  cbn [map app stripSign].
  rewrite digitChar_not_minus by (inversion Hds; assumption).
  reflexivity.
Qed.

(** Reading back a rendered amount gives the amount. *)
Theorem parseUnits_formatUnits (v : Z) (d : nat) :
  parseUnits (formatUnits v d) d = Ok v.
Proof.
  unfold parseUnits, formatUnits.
  rewrite list_ascii_of_string_of_list_ascii.
  destruct (Z.ltb_spec v 0) as [Hneg|Hpos].
  - cbn [app stripSign]. change (Ascii.eqb minus minus) with true. cbn iota.
    rewrite parseMagnitude_magnitude by lia. f_equal. lia.
  - cbn [app]. rewrite stripSign_magnitude.
    rewrite parseMagnitude_magnitude by lia. f_equal. lia.
Qed.

Corollary parseEther_formatEther (wei : Z) :
  parseEther (formatEther wei) = Ok wei.
Proof. apply parseUnits_formatUnits. Qed.

End UnitsFacts.

Lemma parseEther_threshold : Units.parseEther "0.05" = Ok threshold.
Proof. reflexivity. Qed.

Lemma parseUnits_floor : Units.parseUnits "3" Units.gwei = Ok floorPriorityFee.
Proof. reflexivity. Qed.

Lemma parseUnits_defaultMaxFee :
  Units.parseUnits "50" Units.gwei = Ok defaultMaxFee.
Proof. reflexivity. Qed.

(** ** Stepping through monadic code *)

Lemma bind_ok {A B} (m : M A) (k : A -> M B) (w w' : World) (b : B) :
  bind m k w = (Ok b, w') ->
  exists a w1, m w = (Ok a, w1) /\ k a w1 = (Ok b, w').
Proof.
  unfold bind. destruct (m w) as [[a|e] w1]; intros H.
  - exists a, w1. split; [reflexivity | exact H].
  - discriminate.
Qed.

Lemma rpc_ok {A} (m : RpcMethod) (reply : nat -> result A) (w w1 : World) (a : A) :
  rpc m reply w = (Ok a, w1) -> reply (clock w) = Ok a /\ w1 = tick (Rpc m) w.
Proof. unfold rpc. intros H. inversion H. split; reflexivity. Qed.

Lemma liftResult_ok {A} (r : result A) (w w1 : World) (a : A) :
  liftResult r w = (Ok a, w1) -> r = Ok a /\ w1 = w.
Proof. unfold liftResult. intros H. inversion H. split; reflexivity. Qed.

Lemma log_ok (lvl : Level) (msg : string) (meta : option string)
    (w w1 : World) (u : unit) :
  log lvl msg meta w = (Ok u, w1) -> w1 = emit (Logged lvl msg meta) w.
Proof. unfold log. intros H. inversion H. reflexivity. Qed.

Lemma orElse_ok (a : option Z) (d : Z) (w w1 : World) (v : Z) :
  orElse a (Ok d) w = (Ok v, w1) -> v = fallback a d /\ w1 = w.
Proof.
  unfold orElse, fallback, ret, liftResult.
  destruct (truthyBigInt a); intros H; inversion H; split; reflexivity.
Qed.

Lemma signTransaction_ok (k : Wallet) (req : TransactionRequest)
    (w w1 : World) (s : SignedTransaction) :
  signTransaction k req w = (Ok s, w1) ->
  exists sg, signatureOf k req = Ok sg
             /\ s = {| signed_request := req; signature := sg |}
             /\ w1 = emit (SignRequested req) w.
Proof.
  unfold signTransaction. destruct (signatureOf k req) as [sg|e]; intros H.
  - exists sg. inversion H. repeat split.
  - discriminate.
Qed.

(** A handler that logs and returns a fixed value makes the [try] total. *)
Lemma tryCatch_handled {A} (body : M A) (msg : string) (dflt : A) (w : World) :
  exists r w', tryCatch body
                 (fun e => log error msg (Some e) ;; ret dflt) w = (Ok r, w').
Proof.
  unfold tryCatch. destruct (body w) as [[a|e] w1].
  - exists a, w1. reflexivity.
  - eexists _, _. reflexivity.
Qed.

Lemma newEvents_app (w : World) (c : nat) (evs : list Event) :
  newEvents w {| clock := c; trace := trace w ++ evs |} = evs.
Proof.
  unfold newEvents. cbn [trace].
  rewrite skipn_app, skipn_all, Nat.sub_diag. reflexivity.
Qed.

(** ** What a built bundle is made of *)

(** Every step the builder took when it returns a bundle, and the effects it
    left behind. *)
Lemma createSandwichBundle_built (x : FlashbotsMEVExecutor) (o : MEVOpportunity)
    (w w' : World) (b : BundleRequest) :
  createSandwichBundle x o w = (Ok (Some b), w') ->
  exists targetValue currentBlock initialNonce netProfit feeData sg1 sg2,
    let minerTip := Z.quot netProfit 2 in
    let priority := fallback (fee_maxPriorityFeePerGas feeData) floorPriorityFee in
    let maxFee := fallback (fee_maxFeePerGas feeData) defaultMaxFee + minerTip in
    let frontRunTx :=
      frontRunRequest (wallet x) priority maxFee (Z.quot targetValue 10)
        initialNonce in
    let backRunTx := backRunRequest (wallet x) priority maxFee initialNonce in
    truthyBigInt (targetTxValue o) = Some targetValue
    /\ blockNumberReply (provider x) (clock w) = Ok currentBlock
    /\ transactionCountReply (provider x) (address (wallet x)) (S (clock w))
       = Ok initialNonce
    /\ Units.parseEther (profit o) = Ok netProfit
    /\ feeDataReply (provider x) (S (S (clock w))) = Ok feeData
    /\ signatureOf (wallet x) frontRunTx = Ok sg1
    /\ signatureOf (wallet x) backRunTx = Ok sg2
    /\ b = {| transactions :=
                [ {| signed_request := frontRunTx; signature := sg1 |};
                  {| signed_request := backRunTx; signature := sg2 |} ];
              blockNumber := currentBlock + 1 |}
    /\ w' = {| clock := S (S (S (clock w)));
               trace := trace w
                        ++ [ Rpc eth_blockNumber;
                             Rpc (eth_getTransactionCount (address (wallet x)));
                             Logged info (tipLogMessage o minerTip) None;
                             Rpc eth_feeData;
                             SignRequested frontRunTx;
                             SignRequested backRunTx ] |}.
Proof.
  intros H. unfold createSandwichBundle, tryCatch in H.
  match type of H with
  | (match ?body w with _ => _ end) = _ =>
      destruct (body w) as [[r|e] w1] eqn:Hbody; [|discriminate]
  end.
  inversion H; subst r w1; clear H.
  destruct (truthyBigInt (targetTxValue o)) as [targetValue|] eqn:Hv.
  2:{ apply bind_ok in Hbody as (u & w1 & _ & Hret). discriminate. }
  apply bind_ok in Hbody as (currentBlock & w1 & Hblock & Hbody).
  apply rpc_ok in Hblock as [Hblock ->].
  apply bind_ok in Hbody as (initialNonce & w2 & Hnonce & Hbody).
  apply rpc_ok in Hnonce as [Hnonce ->].
  apply bind_ok in Hbody as (netProfit & w3 & Hprofit & Hbody).
  apply liftResult_ok in Hprofit as [Hprofit ->].
  apply bind_ok in Hbody as (u & w4 & Hlog & Hbody).
  apply log_ok in Hlog as ->.
  apply bind_ok in Hbody as (feeData & w5 & Hfee & Hbody).
  apply rpc_ok in Hfee as [Hfee ->].
  rewrite parseUnits_floor, parseUnits_defaultMaxFee in Hbody.
  apply bind_ok in Hbody as (priority & w6 & Hprio & Hbody).
  apply orElse_ok in Hprio as [-> ->].
  apply bind_ok in Hbody as (baseFee & w7 & Hbase & Hbody).
  apply orElse_ok in Hbase as [-> ->].
  apply bind_ok in Hbody as (s1 & w8 & Hs1 & Hbody).
  apply signTransaction_ok in Hs1 as (sg1 & Hsg1 & -> & ->).
  apply bind_ok in Hbody as (s2 & w9 & Hs2 & Hbody).
  apply signTransaction_ok in Hs2 as (sg2 & Hsg2 & -> & ->).
  unfold ret in Hbody. inversion Hbody; subst b w'; clear Hbody.
  exists targetValue, currentBlock, initialNonce, netProfit, feeData, sg1, sg2.
  cbv zeta. repeat split; try assumption.
  unfold emit, tick, tipLogMessage. cbn [clock trace].
  repeat rewrite <- app_assoc. reflexivity.
Qed.

(** The builder never throws. *)
Lemma createSandwichBundle_total (x : FlashbotsMEVExecutor) (o : MEVOpportunity)
    (w : World) :
  exists r w', createSandwichBundle x o w = (Ok r, w').
Proof. unfold createSandwichBundle. apply tryCatch_handled. Qed.

Lemma fst_snd_eq {A B} (p : A * B) (a : A) : fst p = a -> p = (a, snd p).
Proof. destruct p. cbn. intros ->. reflexivity. Qed.

Lemma truthyBigInt_Some (a : option Z) (v : Z) :
  truthyBigInt a = Some v -> a = Some v /\ v <> 0.
Proof.
  unfold truthyBigInt. destruct a as [n|]; [|discriminate].
  destruct (Z.eqb_spec n 0); [discriminate|].
  intros H. inversion H. subst. split; [reflexivity | assumption].
Qed.

Lemma fallback_given (a : option Z) (d v : Z) :
  a = Some v -> v <> 0 -> fallback a d = v.
Proof.
  intros -> Hv. unfold fallback, truthyBigInt.
  destruct (Z.eqb_spec v 0); [contradiction | reflexivity].
Qed.

Lemma fallback_default (a : option Z) (d : Z) :
  a = None \/ a = Some 0 -> fallback a d = d.
Proof. intros [-> | ->]; reflexivity. Qed.

Example scenario_build :
  fst (createSandwichBundle Scenario.executor Scenario.opportunity Scenario.start)
  = Ok (Some Scenario.bundle).
Proof. vm_compute. reflexivity. Qed.

Example scenario_build_V3 :
  fst (createSandwichBundle Scenario.executor Scenario.opportunityV3
         Scenario.start)
  = Ok (Some Scenario.bundleV3).
Proof. vm_compute. reflexivity. Qed.

(** ** C1: the priority fee *)

(** C1, as stated, fails: with a suggested priority fee of 1 gwei the built
    transactions carry 1 gwei, not the maximum of 1 gwei and the 3 gwei
    default. *)
Lemma C1_priority_fee_below_floor :
  fst (createSandwichBundle Scenario.executor Scenario.opportunity Scenario.start)
  = Ok (Some Scenario.bundle)
  /\ feeDataReply (provider Scenario.executor) 2 = Ok Scenario.fees
  /\ fee_maxPriorityFeePerGas Scenario.fees = Some 1000000000
  /\ transactions Scenario.bundle = [Scenario.front; Scenario.back]
  /\ maxPriorityFeePerGas (signed_request Scenario.front) = 1000000000
  /\ maxPriorityFeePerGas (signed_request Scenario.back) = 1000000000
  /\ Z.max 1000000000 floorPriorityFee = 3000000000
  /\ maxPriorityFeePerGas (signed_request Scenario.front)
     <> Z.max 1000000000 floorPriorityFee.
Proof.
  repeat split; try (vm_compute; reflexivity).
  vm_compute. discriminate.
Qed.

(** C1 (amended): in every built bundle both transactions carry the
    network-suggested priority fee when the fee estimate gives one that is
    not zero, and the 3 gwei default when the estimate gives none or zero. *)
Theorem C1_priority_fee_is_suggestion_or_default
    (x : FlashbotsMEVExecutor) (o : MEVOpportunity) (w : World)
    (b : BundleRequest) :
  fst (createSandwichBundle x o w) = Ok (Some b) ->
  exists front back feeData,
    transactions b = [front; back]
    /\ feeDataReply (provider x) (S (S (clock w))) = Ok feeData
    /\ maxPriorityFeePerGas (signed_request front)
       = maxPriorityFeePerGas (signed_request back)
    /\ (forall v, fee_maxPriorityFeePerGas feeData = Some v -> v <> 0 ->
                  maxPriorityFeePerGas (signed_request front) = v)
    /\ (fee_maxPriorityFeePerGas feeData = None
        \/ fee_maxPriorityFeePerGas feeData = Some 0 ->
        maxPriorityFeePerGas (signed_request front) = 3000000000).
Proof.
  intros H. apply fst_snd_eq in H.
  apply createSandwichBundle_built in H
    as (tv & cb & n & np & fd & sg1 & sg2 & _ & _ & _ & _ & Hfee & _ & _ & -> & _).
  eexists _, _, fd. split; [reflexivity|]. split; [exact Hfee|].
  cbn [signed_request maxPriorityFeePerGas frontRunRequest backRunRequest].
  split; [reflexivity|]. split.
  - intros v Hv Hnz. apply fallback_given; assumption.
  - intros Hnone. apply (fallback_default _ floorPriorityFee Hnone).
Qed.

Lemma C1_witness :
  fst (createSandwichBundle Scenario.executor Scenario.opportunity Scenario.start)
  = Ok (Some Scenario.bundle)
  /\ exists front back feeData,
      transactions Scenario.bundle = [front; back]
      /\ feeDataReply (provider Scenario.executor) 2 = Ok feeData
      /\ maxPriorityFeePerGas (signed_request front)
         = maxPriorityFeePerGas (signed_request back)
      /\ (forall v, fee_maxPriorityFeePerGas feeData = Some v -> v <> 0 ->
                    maxPriorityFeePerGas (signed_request front) = v)
      /\ (fee_maxPriorityFeePerGas feeData = None
          \/ fee_maxPriorityFeePerGas feeData = Some 0 ->
          maxPriorityFeePerGas (signed_request front) = 3000000000).
Proof.
  split; [vm_compute; reflexivity|].
  apply (C1_priority_fee_is_suggestion_or_default
           Scenario.executor Scenario.opportunity Scenario.start Scenario.bundle).
  vm_compute. reflexivity.
Defined.

(** ** C4: shape of a built bundle *)

(** C4: a returned bundle has exactly two transactions, front-run then
    back-run; the first nonce is the account's transaction count read by the
    builder and the second is that plus one; both carry the same priority
    fee and the same max fee; the target block is the chain height read by
    the builder plus one. *)
Theorem C4_bundle_shape
    (x : FlashbotsMEVExecutor) (o : MEVOpportunity) (w : World)
    (b : BundleRequest) :
  fst (createSandwichBundle x o w) = Ok (Some b) ->
  exists front back height count,
    transactions b = [front; back]
    /\ blockNumberReply (provider x) (clock w) = Ok height
    /\ transactionCountReply (provider x) (address (wallet x)) (S (clock w))
       = Ok count
    /\ nonce (signed_request front) = count
    /\ nonce (signed_request back) = count + 1
    /\ maxPriorityFeePerGas (signed_request front)
       = maxPriorityFeePerGas (signed_request back)
    /\ maxFeePerGas (signed_request front)
       = maxFeePerGas (signed_request back)
    /\ blockNumber b = height + 1.
Proof.
  intros H. apply fst_snd_eq in H.
  apply createSandwichBundle_built in H
    as (tv & cb & n & np & fd & sg1 & sg2
        & _ & Hblock & Hcount & _ & _ & _ & _ & -> & _).
  eexists _, _, cb, n. repeat split; assumption.
Qed.

Lemma C4_witness :
  fst (createSandwichBundle Scenario.executor Scenario.opportunity Scenario.start)
  = Ok (Some Scenario.bundle)
  /\ exists front back height count,
      transactions Scenario.bundle = [front; back]
      /\ blockNumberReply (provider Scenario.executor) 0 = Ok height
      /\ transactionCountReply (provider Scenario.executor)
           (address (wallet Scenario.executor)) 1 = Ok count
      /\ nonce (signed_request front) = count
      /\ nonce (signed_request back) = count + 1
      /\ maxPriorityFeePerGas (signed_request front)
         = maxPriorityFeePerGas (signed_request back)
      /\ maxFeePerGas (signed_request front)
         = maxFeePerGas (signed_request back)
      /\ blockNumber Scenario.bundle = height + 1.
Proof.
  split; [vm_compute; reflexivity|].
  apply (C4_bundle_shape
           Scenario.executor Scenario.opportunity Scenario.start Scenario.bundle).
  vm_compute. reflexivity.
Defined.

(** The scenario of the specification: account nonce 7 gives nonces 7 and 8,
    chain height 100 gives target block 101. *)
Example scenario_nonces :
  map (fun t => nonce (signed_request t)) (transactions Scenario.bundle) = [7; 8]
  /\ blockNumber Scenario.bundle = 101.
Proof. split; reflexivity. Qed.

(** ** C6: tip and front-run size *)

(** C6: for a returned bundle the tip is the opportunity's profit string read
    back to wei and halved by integer division; it is what the builder adds
    to the max fee and reports in its log; the front-run transaction's value
    is the target transaction's value divided by 10 by integer division. *)
Theorem C6_tip_and_front_run_value
    (x : FlashbotsMEVExecutor) (o : MEVOpportunity) (w : World)
    (b : BundleRequest) :
  fst (createSandwichBundle x o w) = Ok (Some b) ->
  exists front back netProfit targetValue feeData,
    transactions b = [front; back]
    /\ Units.parseEther (profit o) = Ok netProfit
    /\ targetTxValue o = Some targetValue
    /\ feeDataReply (provider x) (S (S (clock w))) = Ok feeData
    /\ maxFeePerGas (signed_request front)
       = fallback (fee_maxFeePerGas feeData) defaultMaxFee + Z.quot netProfit 2
    /\ In (Logged info (tipLogMessage o (Z.quot netProfit 2)) None)
          (newEvents w (snd (createSandwichBundle x o w)))
    /\ req_value (signed_request front) = Z.quot targetValue 10.
Proof.
  intros H. apply fst_snd_eq in H.
  destruct (createSandwichBundle_built _ _ _ _ _ H)
    as (tv & cb & n & np & fd & sg1 & sg2
        & Htv & _ & _ & Hprofit & Hfee & _ & _ & -> & Hw).
  apply truthyBigInt_Some in Htv as [Htv _].
  eexists _, _, np, tv, fd.
  repeat split; try assumption.
  rewrite Hw, newEvents_app. cbn. auto.
Qed.

Lemma C6_witness :
  fst (createSandwichBundle Scenario.executor Scenario.opportunity Scenario.start)
  = Ok (Some Scenario.bundle)
  /\ exists front back netProfit targetValue feeData,
      transactions Scenario.bundle = [front; back]
      /\ Units.parseEther (profit Scenario.opportunity) = Ok netProfit
      /\ targetTxValue Scenario.opportunity = Some targetValue
      /\ feeDataReply (provider Scenario.executor) 2 = Ok feeData
      /\ maxFeePerGas (signed_request front)
         = fallback (fee_maxFeePerGas feeData) defaultMaxFee
           + Z.quot netProfit 2
      /\ In (Logged info
               (tipLogMessage Scenario.opportunity (Z.quot netProfit 2)) None)
            (newEvents Scenario.start
               (snd (createSandwichBundle Scenario.executor
                       Scenario.opportunity Scenario.start)))
      /\ req_value (signed_request front) = Z.quot targetValue 10.
Proof.
  split; [vm_compute; reflexivity|].
  apply (C6_tip_and_front_run_value
           Scenario.executor Scenario.opportunity Scenario.start Scenario.bundle).
  vm_compute. reflexivity.
Defined.

(** The scenario of the specification: a target of 1.0 gives the profit
    "0.05", a tip of 0.025 and a front-run value of 0.1. *)
Example scenario_amounts :
  profit Scenario.opportunity = "0.05"%string
  /\ Units.parseEther (profit Scenario.opportunity) = Units.parseEther "0.05"
  /\ Units.formatEther (Z.quot 50000000000000000 2) = "0.025"%string
  /\ tipLogMessage Scenario.opportunity (Z.quot 50000000000000000 2)
     = "Calculated Net Profit: 0.05 ETH. Tipping: 0.025 ETH."%string
  /\ Units.formatEther (req_value (signed_request Scenario.front))
     = "0.1"%string
  /\ maxFeePerGas (signed_request Scenario.front)
     = 30 * Scenario.GWEI + 25000000000000000.
Proof. repeat split; vm_compute; reflexivity. Qed.

(** ** C10: recipient, calldata and back-run value *)

(** C10: in a returned bundle both transactions go to the Uniswap V2 router
    constant with the placeholder calldata, whatever the opportunity's target
    was, and the back-run transaction has value 0. *)
Theorem C10_router_and_calldata_fixed
    (x : FlashbotsMEVExecutor) (o : MEVOpportunity) (w : World)
    (b : BundleRequest) :
  fst (createSandwichBundle x o w) = Ok (Some b) ->
  exists front back,
    transactions b = [front; back]
    /\ req_to (signed_request front) = UNISWAP_V2_ROUTER
    /\ req_to (signed_request back) = UNISWAP_V2_ROUTER
    /\ req_data (signed_request front) = placeholderData
    /\ req_data (signed_request back) = placeholderData
    /\ req_value (signed_request back) = 0.
Proof.
  intros H. apply fst_snd_eq in H.
  apply createSandwichBundle_built in H
    as (tv & cb & n & np & fd & sg1 & sg2
        & _ & _ & _ & _ & _ & _ & _ & -> & _).
  eexists _, _. repeat split.
Qed.

(** The witness takes the opportunity whose target went to the V3 router. *)
Lemma C10_witness :
  (opp_transactions Scenario.opportunityV3 = [Scenario.targetV3]
   /\ tx_to Scenario.targetV3
      = Some (toLowerCase UNISWAP_V3_ROUTER))
  /\ fst (createSandwichBundle Scenario.executor Scenario.opportunityV3
            Scenario.start) = Ok (Some Scenario.bundleV3)
  /\ exists front back,
      transactions Scenario.bundleV3 = [front; back]
      /\ req_to (signed_request front) = UNISWAP_V2_ROUTER
      /\ req_to (signed_request back) = UNISWAP_V2_ROUTER
      /\ req_data (signed_request front) = placeholderData
      /\ req_data (signed_request back) = placeholderData
      /\ req_value (signed_request back) = 0.
Proof.
  split; [split; vm_compute; reflexivity|].
  split; [vm_compute; reflexivity|].
  apply (C10_router_and_calldata_fixed
           Scenario.executor Scenario.opportunityV3 Scenario.start
           Scenario.bundleV3).
  vm_compute. reflexivity.
Defined.

(** ** C2: the submitter's answer *)

(** The ways a submission ends. *)
Lemma executeBundle_cases (x : FlashbotsMEVExecutor) (b : BundleRequest)
    (w : World) :
  let submitting :=
    Logged info ("Submitting bundle for block "
                 ++ Units.toString (blockNumber b) ++ "...")%string None in
  let sent := BundleSent (transactions b) (blockNumber b) in
  match sendBundleReply (flashbotsProvider x) (transactions b) (blockNumber b) with
  | Throw e =>
      executeBundle x b w
      = (Ok false,
         {| clock := clock w;
            trace := trace w ++ [submitting; sent;
                                 Logged error "Bundle execution failed:" (Some e)] |})
  | Ok s =>
      match waitReply s with
      | Throw e =>
          executeBundle x b w
          = (Ok false,
             {| clock := clock w;
                trace := trace w ++ [submitting; sent; InclusionAwaited;
                                     Logged error "Bundle execution failed:"
                                       (Some e)] |})
      | Ok r =>
          match hasError r with
          | Throw e =>
              executeBundle x b w
              = (Ok false,
                 {| clock := clock w;
                    trace := trace w ++ [submitting; sent; InclusionAwaited;
                                         Logged error "Bundle execution failed:"
                                           (Some e)] |})
          | Ok true =>
              executeBundle x b w
              = (Ok false,
                 {| clock := clock w;
                    trace := trace w ++ [submitting; sent; InclusionAwaited;
                                         Logged error
                                           "Bundle failed to be included or reverted:"
                                           (wr_error r)] |})
          | Ok false =>
              executeBundle x b w
              = (Ok true,
                 {| clock := clock w;
                    trace := trace w ++ [submitting; sent; InclusionAwaited;
                                         Logged info
                                           ("MEV Bundle successfully included in block "
                                            ++ showNumber (wr_blockNumber r))%string
                                           None] |})
          end
      end
  end.
Proof.
  cbv zeta.
  unfold executeBundle, tryCatch, bind, log, sendBundle, wait, ret, emit,
    liftResult.
  cbn [clock trace].
  destruct (sendBundleReply (flashbotsProvider x) (transactions b) (blockNumber b))
    as [s|e]; cbn [clock trace].
  - destruct (waitReply s) as [r|e]; cbn [clock trace].
    + destruct (hasError r) as [[|]|e]; cbn [clock trace];
        repeat rewrite <- app_assoc; reflexivity.
    + repeat rewrite <- app_assoc; reflexivity.
  - repeat rewrite <- app_assoc; reflexivity.
Qed.

(** The [in] test of line 63 on the three kinds of answers. *)
Lemma hasError_cases (r : WaitResponse) :
  match r with
  | Inclusion n =>
      hasError r = Ok false /\ wr_error r = None /\ wr_blockNumber r = Some n
  | ErrorCondition e =>
      hasError r = Ok true /\ wr_error r = Some e /\ wr_blockNumber r = None
  | ResolutionCode _ =>
      (exists e, hasError r = Throw e)
      /\ wr_error r = None /\ wr_blockNumber r = None
  end.
Proof. destruct r; cbn; repeat split; eexists; reflexivity. Qed.

(** C2: the submitter returns [true] exactly when the relay accepted the
    bundle and the inclusion wait resolved with an answer that carries no
    error field and carries a block number; in every other case (the relay
    rejects the bundle, the wait fails, the answer reports an error or is not
    an inclusion confirmation) it returns [false] after logging the cause; it
    never throws. *)
Theorem C2_true_iff_confirmed_inclusion
    (x : FlashbotsMEVExecutor) (b : BundleRequest) (w : World) :
  (fst (executeBundle x b w) = Ok true <-> confirmedInclusion x b)
  /\ (fst (executeBundle x b w) = Ok true
      \/ fst (executeBundle x b w) = Ok false
         /\ exists message cause,
             In (Logged error message (Some cause))
                (newEvents w (snd (executeBundle x b w)))).
Proof.
  pose proof (executeBundle_cases x b w) as H. cbv zeta in H.
  unfold confirmedInclusion.
  destruct (sendBundleReply (flashbotsProvider x) (transactions b) (blockNumber b))
    as [s|e] eqn:Hsend.
  - destruct (waitReply s) as [r|e] eqn:Hwait.
    + pose proof (hasError_cases r) as Hr.
      destruct r as [n|e|code].
      * destruct Hr as (Hin & Herr & Hbn). rewrite Hin in H. rewrite H.
        cbn [fst snd]. split; [|left; reflexivity].
        split; [|reflexivity]. intros _. exists s, (Inclusion n), n. auto.
      * destruct Hr as (Hin & Herr & Hbn). rewrite Hin in H. rewrite H.
        cbn [fst snd]. split.
        -- split; [discriminate|].
           intros (s' & r' & n' & Hs & Hr' & He & Hn).
           assert (r' = ErrorCondition e) by congruence. subst r'. discriminate.
        -- right. split; [reflexivity|]. eexists _, e.
           rewrite newEvents_app. cbn. auto 6.
      * destruct Hr as ((e & Hin) & Herr & Hbn). rewrite Hin in H. rewrite H.
        cbn [fst snd]. split.
        -- split; [discriminate|].
           intros (s' & r' & n' & Hs & Hr' & He & Hn).
           assert (r' = ResolutionCode code) by congruence. subst r'.
           discriminate.
        -- right. split; [reflexivity|]. eexists _, e.
           rewrite newEvents_app. cbn. auto 6.
    + rewrite H; cbn [fst snd]. split.
      * split; [discriminate|].
        intros (s' & r' & n' & Hs & Hr & _). congruence.
      * right. split; [reflexivity|]. eexists _, e.
        rewrite newEvents_app. cbn. auto 6.
  - rewrite H; cbn [fst snd]. split.
    + split; [discriminate|].
      intros (s' & r' & n' & Hs & _). congruence.
    + right. split; [reflexivity|]. eexists _, e.
      rewrite newEvents_app. cbn. auto.
Qed.

(** The three answers of the relay in the concrete run: a confirmed
    inclusion, a reported error and a bare resolution code. *)
Example scenario_submit :
  fst (executeBundle Scenario.executor Scenario.bundle Scenario.start) = Ok true
  /\ (forall answer,
        answer = ErrorCondition "reverted" \/ answer = ResolutionCode 1 ->
        fst (executeBundle
               {| provider := Scenario.chain;
                  flashbotsProvider :=
                    {| sendBundleReply := fun _ _ =>
                         Ok {| waitReply := Ok answer |} |};
                  wallet := Scenario.signer |}
               Scenario.bundle Scenario.start) = Ok false).
Proof.
  split; [vm_compute; reflexivity|].
  intros answer [-> | ->]; vm_compute; reflexivity.
Qed.

(** ** The estimator's filter *)

Lemma includes_allowListed (to : string) :
  includes dexAddresses (toLowerCase to) = true <-> allowListed to.
Proof.
  unfold includes, allowListed, dexAddresses. fold allowList.
  rewrite existsb_exists. split.
  - intros (y & Hy & Heq). apply in_map_iff in Hy as (a & <- & Ha).
    apply String.eqb_eq in Heq. exists a. split; assumption.
  - intros (a & Ha & Heq). exists (toLowerCase a). split.
    + apply in_map. exact Ha.
    + apply String.eqb_eq. exact Heq.
Qed.

Lemma truthyString_Some (s : option string) (t : string) :
  truthyString s = Some t <-> s = Some t /\ t <> EmptyString.
Proof.
  unfold truthyString. split.
  - destruct s as [u|]; [|discriminate].
    destruct (String.eqb_spec u EmptyString); [discriminate|].
    intros H. inversion H. subst. split; [reflexivity | assumption].
  - intros [-> Hne]. destruct (String.eqb_spec t EmptyString); [contradiction | reflexivity].
Qed.

Lemma allowListed_nonempty (to : string) : allowListed to -> to <> EmptyString.
Proof.
  intros (a & Ha & Heq) ->. cbn in Heq.
  destruct Ha as [<- | [<- | []]]; discriminate.
Qed.

Lemma comparedValue_Some (t : TransactionResponse) (v : Z) :
  comparedValue t = Some v
  <-> exists to,
        tx_to t = Some to /\ allowListed to /\ tx_value t = Some v /\ v <> 0.
Proof.
  unfold comparedValue. split.
  - destruct (truthyString (tx_to t)) as [to|] eqn:Hto; [|discriminate].
    apply truthyString_Some in Hto as [Hto _].
    destruct (includes dexAddresses (toLowerCase to)) eqn:Hinc; [|discriminate].
    apply includes_allowListed in Hinc.
    intros Hv. apply truthyBigInt_Some in Hv as [Hv Hne].
    exists to. auto.
  - intros (to & Hto & Hallow & Hv & Hne).
    assert (Hts : truthyString (tx_to t) = Some to).
    { apply truthyString_Some. split; [exact Hto|].
      apply allowListed_nonempty. exact Hallow. }
    rewrite Hts. apply includes_allowListed in Hallow. rewrite Hallow.
    rewrite Hv. unfold truthyBigInt.
    destruct (Z.eqb_spec v 0); [contradiction | reflexivity].
Qed.

(** A candidate reaches the comparison with the threshold. *)
Lemma comparedValue_candidate (t : TransactionResponse) (V : Z) :
  passesFilter t V -> comparedValue t = Some V.
Proof.
  intros (to & Hto & Hallow & Hv & Hgt). apply comparedValue_Some.
  exists to. unfold threshold in Hgt. repeat split; try assumption. lia.
Qed.

(** What the estimator does with one transaction: the comparison of line 193
    throws when it is reached, the [catch] logs the [TypeError] and the
    answer is [null]; the chain is not asked for its height. *)
Lemma analyzeTransaction_cases (x : FlashbotsMEVExecutor)
    (t : TransactionResponse) (w : World) :
  analyzeTransaction x (Some t) w
  = (Ok None,
     match comparedValue t with
     | Some _ => emit analysisFailedLine w
     | None => w
     end).
Proof.
  unfold comparedValue, analyzeTransaction.
  destruct (truthyString (tx_to t)) as [to|]; [|reflexivity].
  unfold analyzeBody, tryCatch.
  destruct (includes dexAddresses (toLowerCase to)); [|reflexivity].
  destruct (truthyBigInt (tx_value t)) as [v|]; [|reflexivity].
  rewrite parseEther_threshold.
  reflexivity.
Qed.

Lemma analyzeTransaction_none (x : FlashbotsMEVExecutor)
    (tx : option TransactionResponse) (w : World) :
  fst (analyzeTransaction x tx w) = Ok None.
Proof.
  destruct tx as [t|]; [|reflexivity].
  rewrite analyzeTransaction_cases. reflexivity.
Qed.

(** ** Events a computation may add *)

Section EmitsOnly.
Context (Q : Event -> Prop).

Lemma emitsOnly_ret {A} (a : A) : emitsOnly Q (ret a).
Proof. intros w. exists []. rewrite app_nil_r. split; [reflexivity | constructor]. Qed.

Lemma emitsOnly_liftResult {A} (r : result A) : emitsOnly Q (liftResult r).
Proof. intros w. exists []. rewrite app_nil_r. split; [reflexivity | constructor]. Qed.

Lemma emitsOnly_orElse (a : option Z) (d : result Z) : emitsOnly Q (orElse a d).
Proof.
  unfold orElse. destruct (truthyBigInt a);
    [apply emitsOnly_ret | apply emitsOnly_liftResult].
Qed.

Lemma emitsOnly_log (lvl : Level) (msg : string) (meta : option string) :
  Q (Logged lvl msg meta) -> emitsOnly Q (log lvl msg meta).
Proof. intros HQ w. exists [Logged lvl msg meta]. split; [reflexivity | auto]. Qed.

Lemma emitsOnly_rpc {A} (m : RpcMethod) (reply : nat -> result A) :
  Q (Rpc m) -> emitsOnly Q (rpc m reply).
Proof. intros HQ w. exists [Rpc m]. split; [reflexivity | auto]. Qed.

Lemma emitsOnly_sign (k : Wallet) (req : TransactionRequest) :
  Q (SignRequested req) -> emitsOnly Q (signTransaction k req).
Proof. intros HQ w. exists [SignRequested req]. split; [reflexivity | auto]. Qed.

Lemma emitsOnly_bind {A B} (m : M A) (k : A -> M B) :
  emitsOnly Q m -> (forall a, emitsOnly Q (k a)) -> emitsOnly Q (bind m k).
Proof.
  intros Hm Hk w. unfold bind.
  destruct (Hm w) as (evs & Ht & HQ).
  destruct (m w) as [[a|e] w1]; cbn [snd] in *.
  - destruct (Hk a w1) as (evs' & Ht' & HQ').
    exists (evs ++ evs'). rewrite Ht', Ht, app_assoc.
    split; [reflexivity | apply Forall_app; split; assumption].
  - exists evs. split; assumption.
Qed.

Lemma emitsOnly_tryCatch {A} (body : M A) (handler : string -> M A) :
  emitsOnly Q body -> (forall e, emitsOnly Q (handler e)) ->
  emitsOnly Q (tryCatch body handler).
Proof.
  intros Hm Hk w. unfold tryCatch.
  destruct (Hm w) as (evs & Ht & HQ).
  destruct (body w) as [[a|e] w1]; cbn [snd] in *.
  - exists evs. split; assumption.
  - destruct (Hk e w1) as (evs' & Ht' & HQ').
    exists (evs ++ evs'). rewrite Ht', Ht, app_assoc.
    split; [reflexivity | apply Forall_app; split; assumption].
Qed.

End EmitsOnly.

Ltac emits_step :=
  first [ apply emitsOnly_ret
        | apply emitsOnly_liftResult
        | apply emitsOnly_orElse
        | apply emitsOnly_log; cbn; auto
        | apply emitsOnly_rpc; cbn; auto
        | apply emitsOnly_sign; cbn; auto
        | apply emitsOnly_bind; [|intros ?] ].

Lemma newEvents_of_trace (w w' : World) (evs : list Event) :
  trace w' = trace w ++ evs -> newEvents w w' = evs.
Proof.
  intros H. unfold newEvents. rewrite H.
  rewrite skipn_app, skipn_all, Nat.sub_diag. reflexivity.
Qed.

Lemma createSandwichBundle_events (x : FlashbotsMEVExecutor) (o : MEVOpportunity) :
  emitsOnly (builderEvent o) (createSandwichBundle x o).
Proof.
  unfold createSandwichBundle. apply emitsOnly_tryCatch.
  - destruct (truthyBigInt (targetTxValue o)) as [v|] eqn:Hv.
    + unfold getBlockNumber, getTransactionCount, getFeeData.
      repeat (cbv zeta; emits_step).
    + repeat emits_step.
  - intros e. repeat emits_step.
Qed.

(** ** The scan loop *)

(** The loop over a batch that is not empty is left at its first element:
    the conversion of line 166 throws before the estimator is called. *)
Lemma scanLoop_cons (x : FlashbotsMEVExecutor) (txData : RawTransaction)
    (rest : list RawTransaction) (opps : list MEVOpportunity) (w : World) :
  scanLoop x (txData :: rest) opps w = (Ok (opps, Some formatterError), w).
Proof. reflexivity. Qed.

(** What a scan does, by the answer to the pending-block query. *)
Lemma scanMEVOpportunities_cases (x : FlashbotsMEVExecutor) (w : World) :
  scanMEVOpportunities x w
  = (Ok [],
     let fetched := tick (Rpc eth_getBlockByNumber_pending) w in
     match pendingBlockReply (provider x) (clock w) with
     | Throw e => emit (Logged error "MEV scanning failed:" (Some e)) fetched
     | Ok None => fetched
     | Ok (Some b) =>
         match pb_transactions b with
         | Some (_ :: _) => emit scanFailedLine fetched
         | _ => fetched
         end
     end).
Proof.
  cbv zeta. unfold scanMEVOpportunities, getPendingBlock, rpc.
  destruct (pendingBlockReply (provider x) (clock w)) as [[b|]|e];
    try reflexivity.
  destruct (pb_transactions b) as [[|txData rest]|]; reflexivity.
Qed.

(** The scanner never throws. *)
Lemma scanMEVOpportunities_total (x : FlashbotsMEVExecutor) (w : World) :
  exists found w', scanMEVOpportunities x w = (Ok found, w').
Proof. rewrite scanMEVOpportunities_cases. eexists _, _. reflexivity. Qed.

Lemma scanMEVOpportunities_nothing (x : FlashbotsMEVExecutor) (w : World) :
  fst (scanMEVOpportunities x w) = Ok [].
Proof. rewrite scanMEVOpportunities_cases. reflexivity. Qed.

(** The concrete run: the pending block lists the two transfers, the scan
    ends at the first of them and returns nothing. *)
Example scenario_scan :
  scanMEVOpportunities Scenario.executor Scenario.start
  = (Ok [],
     {| clock := 1;
        trace := [Rpc eth_getBlockByNumber_pending; scanFailedLine] |}).
Proof. vm_compute. reflexivity. Qed.

(** ** C3: a failure in the scan of one candidate *)

(** C3 does not hold of the code.  The conversion of a pending transaction
    (line 166) is outside the [try] of the estimator, and it throws for every
    element: when the pending block lists at least one transaction the loop
    is left at the first element with the [TypeError], no transaction of the
    batch is handed to the estimator, and the scan logs
    'MEV scanning failed:' once and returns the empty list. *)
Theorem C3_scan_ends_at_first_transaction
    (x : FlashbotsMEVExecutor) (w : World) (b : PendingBlock)
    (txData : RawTransaction) (rest : list RawTransaction) :
  pendingBlockReply (provider x) (clock w) = Ok (Some b) ->
  pb_transactions b = Some (txData :: rest) ->
  scanLoop x (firstn 10 (txData :: rest)) []
    (tick (Rpc eth_getBlockByNumber_pending) w)
  = (Ok ([], Some formatterError), tick (Rpc eth_getBlockByNumber_pending) w)
  /\ scanMEVOpportunities x w
     = (Ok [],
        emit scanFailedLine (tick (Rpc eth_getBlockByNumber_pending) w)).
Proof.
  intros Hb Htxs. split; [reflexivity|].
  rewrite scanMEVOpportunities_cases. cbv zeta. rewrite Hb, Htxs. reflexivity.
Qed.

Lemma C3_witness :
  (pendingBlockReply (provider Scenario.executor) (clock Scenario.start)
   = Ok (Some Scenario.pending)
   /\ pb_transactions Scenario.pending
      = Some (Scenario.rawTarget :: [Scenario.rawTargetV3]))
  /\ scanLoop Scenario.executor
       (firstn 10 (Scenario.rawTarget :: [Scenario.rawTargetV3])) []
       (tick (Rpc eth_getBlockByNumber_pending) Scenario.start)
     = (Ok ([], Some formatterError),
        tick (Rpc eth_getBlockByNumber_pending) Scenario.start)
  /\ scanMEVOpportunities Scenario.executor Scenario.start
     = (Ok [],
        emit scanFailedLine
          (tick (Rpc eth_getBlockByNumber_pending) Scenario.start)).
Proof.
  split; [split; reflexivity|].
  apply (C3_scan_ends_at_first_transaction
           Scenario.executor Scenario.start Scenario.pending
           Scenario.rawTarget [Scenario.rawTargetV3]);
    reflexivity.
Defined.

(** ** C5: the estimated profit *)

Lemma allowListed_V2 : allowListed UNISWAP_V2_ROUTER.
Proof. exists UNISWAP_V2_ROUTER. split; [left; reflexivity | reflexivity]. Qed.

(** C5 does not hold of the code.  For a candidate, a transaction with an
    allow-listed recipient and a value above 0.05 ETH, the comparison of
    line 193 throws inside the [try]: the estimator logs
    'Transaction analysis failed:' with the [TypeError] and returns nothing;
    no profit is computed, the found line is not logged and the chain is not
    asked for its height. *)
Theorem C5_estimator_fails_on_every_candidate
    (x : FlashbotsMEVExecutor) (t : TransactionResponse) (V : Z) (w : World) :
  passesFilter t V ->
  analyzeTransaction x (Some t) w = (Ok None, emit analysisFailedLine w)
  /\ newEvents w (snd (analyzeTransaction x (Some t) w)) = [analysisFailedLine]
  /\ clock (snd (analyzeTransaction x (Some t) w)) = clock w.
Proof.
  intros Hpass. apply comparedValue_candidate in Hpass.
  rewrite analyzeTransaction_cases, Hpass. cbn [snd].
  split; [reflexivity|]. split; [|reflexivity].
  apply newEvents_of_trace. reflexivity.
Qed.

Lemma C5_witness :
  passesFilter Scenario.target Scenario.ETH
  /\ analyzeTransaction Scenario.executor (Some Scenario.target) Scenario.start
     = (Ok None, emit analysisFailedLine Scenario.start)
  /\ newEvents Scenario.start
       (snd (analyzeTransaction Scenario.executor (Some Scenario.target)
               Scenario.start))
     = [analysisFailedLine]
  /\ clock (snd (analyzeTransaction Scenario.executor (Some Scenario.target)
                   Scenario.start))
     = clock Scenario.start.
Proof.
  assert (Hpass : passesFilter Scenario.target Scenario.ETH).
  { exists UNISWAP_V2_ROUTER. split; [reflexivity|].
    split; [apply allowListed_V2|]. split; [reflexivity|].
    unfold Scenario.ETH, threshold. lia. }
  split; [exact Hpass|].
  apply (C5_estimator_fails_on_every_candidate
           Scenario.executor Scenario.target Scenario.ETH Scenario.start Hpass).
Defined.

(** The scenario of the specification, a target of 1.0: five percent of it
    is 0.05, and the estimator returns nothing for it. *)
Example scenario_estimate :
  Units.formatEther (Z.quot (Scenario.ETH * 5) 100) = "0.05"%string
  /\ analyzeTransaction Scenario.executor (Some Scenario.target) Scenario.start
     = (Ok None, {| clock := 0; trace := [analysisFailedLine] |}).
Proof. split; vm_compute; reflexivity. Qed.

(** ** C7: what the scanner leaves out *)

Lemma comparedValue_not_allowListed (t : TransactionResponse) :
  (forall to, tx_to t = Some to -> ~ allowListed to) ->
  comparedValue t = None.
Proof.
  intros Hex. destruct (comparedValue t) as [v|] eqn:Hc; [|reflexivity].
  apply comparedValue_Some in Hc as (to & Hto & Hallow & _).
  elim (Hex to Hto Hallow).
Qed.

(** C7: a transaction whose recipient is not on the allow-list (compared
    without regard to letter case) or whose value is at most 0.05 ETH gets no
    opportunity from the analysis, and no opportunity the scanner returns is
    for that transaction; when the recipient is not on the allow-list the
    analysis leaves no trace. *)
Theorem C7_excluded_transactions_yield_nothing
    (x : FlashbotsMEVExecutor) (t : TransactionResponse) :
  excluded t ->
  (forall w, fst (analyzeTransaction x (Some t) w) = Ok None)
  /\ (forall w found o,
         fst (scanMEVOpportunities x w) = Ok found ->
         In o found ->
         opp_transactions o <> [t])
  /\ ((forall to, tx_to t = Some to -> ~ allowListed to) ->
      forall w, analyzeTransaction x (Some t) w = (Ok None, w)).
Proof.
  intros Hex. split; [|split].
  - intros w. apply analyzeTransaction_none.
  - intros w found o Hfound Ho.
    rewrite scanMEVOpportunities_nothing in Hfound.
    inversion Hfound. subst found. destruct Ho.
  - intros Hto w. rewrite analyzeTransaction_cases.
    rewrite (comparedValue_not_allowListed t Hto). reflexivity.
Qed.

Lemma C7_witness :
  excluded Outage.small
  /\ (forall w, fst (analyzeTransaction Scenario.executor (Some Outage.small) w)
                = Ok None)
  /\ (forall w found o,
         fst (scanMEVOpportunities Scenario.executor w) = Ok found ->
         In o found ->
         opp_transactions o <> [Outage.small])
  /\ ((forall to, tx_to Outage.small = Some to -> ~ allowListed to) ->
      forall w, analyzeTransaction Scenario.executor (Some Outage.small) w
                = (Ok None, w)).
Proof.
  assert (Hex : excluded Outage.small).
  { right. intros v Hv. inversion Hv. unfold threshold. lia. }
  split; [exact Hex|].
  apply (C7_excluded_transactions_yield_nothing Scenario.executor Outage.small).
  exact Hex.
Defined.

(** The scenario of the specification: a target of 0.04 is left out. *)
Example scenario_below_threshold :
  Units.formatEther 40000000000000000 = "0.04"%string
  /\ fst (analyzeTransaction Scenario.executor (Some Outage.small) Scenario.start)
     = Ok None.
Proof. split; vm_compute; reflexivity. Qed.

(** ** C8: when the builder returns nothing *)

(** C8: without the target transaction's value the builder returns nothing
    and its only effect is the error it logs: no RPC is issued and nothing is
    signed; when the block-height query, the nonce query, the reading of the
    profit, the fee query or the signing of one of the two requests fails the
    builder returns nothing; and the builder never sends a bundle. *)
Theorem C8_builder_returns_nothing_on_failure
    (x : FlashbotsMEVExecutor) (o : MEVOpportunity) (w : World) :
  (targetTxValue o = None ->
   createSandwichBundle x o w
   = (Ok None, emit (Logged error missingValueMessage None) w))
  /\ (forall e,
         blockNumberReply (provider x) (clock w) = Throw e
         \/ transactionCountReply (provider x) (address (wallet x)) (S (clock w))
            = Throw e
         \/ Units.parseEther (profit o) = Throw e
         \/ feeDataReply (provider x) (S (S (clock w))) = Throw e
         \/ (exists req,
                In (SignRequested req)
                   (newEvents w (snd (createSandwichBundle x o w)))
                /\ signatureOf (wallet x) req = Throw e) ->
         fst (createSandwichBundle x o w) = Ok None)
  /\ (forall txs target,
         ~ In (BundleSent txs target)
              (newEvents w (snd (createSandwichBundle x o w)))).
Proof.
  split; [|split].
  - intros Hnone. unfold createSandwichBundle. rewrite Hnone. reflexivity.
  - intros e Hfail.
    destruct (createSandwichBundle_total x o w) as ([b|] & w' & Hrun);
      [|rewrite Hrun; reflexivity].
    exfalso.
    destruct (createSandwichBundle_built _ _ _ _ _ Hrun)
      as (tv & cb & n & np & fd & sg1 & sg2
          & _ & Hblock & Hcount & Hprofit & Hfee & Hsg1 & Hsg2 & _ & Hw).
    destruct Hfail as [H | [H | [H | [H | (req & Hin & H)]]]];
      try congruence.
    rewrite Hrun in Hin. cbn [snd] in Hin.
    rewrite Hw, newEvents_app in Hin. cbn [In] in Hin.
    destruct Hin as [Hin | [Hin | [Hin | [Hin | [Hin | [Hin | []]]]]]];
      try discriminate; inversion Hin; subst req; congruence.
  - intros txs target Hin.
    destruct (createSandwichBundle_events x o w) as (evs & Htrace & Hevs).
    rewrite (newEvents_of_trace _ _ _ Htrace) in Hin.
    rewrite Forall_forall in Hevs. apply Hevs in Hin. exact Hin.
Qed.

Lemma C8_witness :
  (targetTxValue Outage.unsized = None
   /\ createSandwichBundle Scenario.executor Outage.unsized Scenario.start
      = (Ok None, emit (Logged error missingValueMessage None) Scenario.start))
  /\ ((exists req,
          In (SignRequested req)
             (newEvents Scenario.start
                (snd (createSandwichBundle Outage.unsigned Scenario.opportunity
                        Scenario.start)))
          /\ signatureOf (wallet Outage.unsigned) req = Throw "signing error")
      /\ fst (createSandwichBundle Outage.unsigned Scenario.opportunity
                Scenario.start) = Ok None)
  /\ (blockNumberReply (provider Outage.offline) (clock Scenario.start)
      = Throw "network down"
      /\ fst (createSandwichBundle Outage.offline Scenario.opportunity
                Scenario.start) = Ok None).
Proof.
  assert (Hsign :
    exists req,
      In (SignRequested req)
         (newEvents Scenario.start
            (snd (createSandwichBundle Outage.unsigned Scenario.opportunity
                    Scenario.start)))
      /\ signatureOf (wallet Outage.unsigned) req = Throw "signing error").
  { eexists. split; [|reflexivity]. vm_compute. do 4 right. left. reflexivity. }
  split; [|split].
  - split; [reflexivity|].
    apply (proj1 (C8_builder_returns_nothing_on_failure
                    Scenario.executor Outage.unsized Scenario.start)).
    reflexivity.
  - split; [exact Hsign|].
    apply (proj1 (proj2 (C8_builder_returns_nothing_on_failure
                           Outage.unsigned Scenario.opportunity Scenario.start))
             "signing error"%string).
    do 4 right. exact Hsign.
  - split; [reflexivity|].
    apply (proj1 (proj2 (C8_builder_returns_nothing_on_failure
                           Outage.offline Scenario.opportunity Scenario.start))
             "network down"%string).
    left. reflexivity.
Defined.

(** * Further properties of the executor *)

(** ** Effects of the scanner *)

Lemma scannerEvent_quiet (evs : list Event) :
  Forall scannerEvent evs ->
  bundlesSent evs = [] /\ signRequests evs = [] /\ inclusionWaits evs = O.
Proof.
  induction 1 as [|ev evs Hev _ (IHb & IHs & IHw)]; [repeat split|].
  unfold bundlesSent, signRequests, inclusionWaits in *.
  destruct ev; cbn in Hev; try contradiction; cbn; auto.
Qed.

Lemma rpcs_app (evs1 evs2 : list Event) :
  rpcs (evs1 ++ evs2) = rpcs evs1 ++ rpcs evs2.
Proof. apply flat_map_app. Qed.

Lemma bundlesSent_app (evs1 evs2 : list Event) :
  bundlesSent (evs1 ++ evs2) = bundlesSent evs1 ++ bundlesSent evs2.
Proof. apply flat_map_app. Qed.

Lemma signRequests_app (evs1 evs2 : list Event) :
  signRequests (evs1 ++ evs2) = signRequests evs1 ++ signRequests evs2.
Proof. apply flat_map_app. Qed.

(** A scan logs at most one line, the failure of the scan. *)
Lemma scanLines_cases (x : FlashbotsMEVExecutor) (w : World) :
  scanLines x w = []
  \/ exists e, scanLines x w = [Logged error "MEV scanning failed:" (Some e)].
Proof.
  unfold scanLines.
  destruct (pendingBlockReply (provider x) (clock w)) as [[b|]|e].
  - destruct (pb_transactions b) as [[|txData rest]|].
    + left. reflexivity.
    + right. exists formatterError. reflexivity.
    + left. reflexivity.
  - left. reflexivity.
  - right. exists e. reflexivity.
Qed.

(** A scan is its query followed by the lines it logs. *)
Lemma scanMEVOpportunities_run (x : FlashbotsMEVExecutor) (w : World) :
  scanMEVOpportunities x w
  = (Ok [],
     {| clock := S (clock w);
        trace := trace w ++ Rpc eth_getBlockByNumber_pending :: scanLines x w |}).
Proof.
  rewrite scanMEVOpportunities_cases. cbv zeta. unfold scanLines.
  destruct (pendingBlockReply (provider x) (clock w)) as [[b|]|e].
  - destruct (pb_transactions b) as [[|txData rest]|];
      unfold emit, tick; cbn [clock trace];
      repeat rewrite <- app_assoc; reflexivity.
  - reflexivity.
  - unfold emit, tick; cbn [clock trace].
    rewrite <- app_assoc. reflexivity.
Qed.

(** What a scan leaves behind, whatever happens. *)
Lemma scanMEVOpportunities_effects (x : FlashbotsMEVExecutor) (w : World) :
  exists found w' evs,
    scanMEVOpportunities x w = (Ok found, w')
    /\ (List.length found <= 10)%nat
    /\ (S (clock w) <= clock w' <= clock w + 11)%nat
    /\ trace w' = trace w ++ evs
    /\ Forall scannerEvent evs
    /\ (1 <= List.length (rpcs evs) <= 11)%nat.
Proof.
  rewrite scanMEVOpportunities_run.
  eexists [], _, (Rpc eth_getBlockByNumber_pending :: scanLines x w).
  split; [reflexivity|]. cbn [clock trace List.length].
  split; [lia|]. split; [lia|]. split; [reflexivity|].
  destruct (scanLines_cases x w) as [-> | [e ->]];
    (split; [repeat constructor | cbn; lia]).
Qed.

(** X1. The scan is bounded and read-only: it never throws, returns at most
    ten opportunities, issues the pending-block query and at most ten
    block-height queries, and neither signs nor sends anything. *)
Theorem scan_is_bounded (x : FlashbotsMEVExecutor) (w : World) :
  exists found evs,
    fst (scanMEVOpportunities x w) = Ok found
    /\ (List.length found <= 10)%nat
    /\ trace (snd (scanMEVOpportunities x w)) = trace w ++ evs
    /\ (1 <= List.length (rpcs evs) <= 11)%nat
    /\ bundlesSent evs = []
    /\ signRequests evs = [].
Proof.
  destruct (scanMEVOpportunities_effects x w)
    as (found & w' & evs & Hrun & Hlen & _ & Htrace & Hevs & Hrpc).
  destruct (scannerEvent_quiet evs Hevs) as (Hb & Hs & _).
  exists found, evs. rewrite Hrun. cbn [fst snd]. repeat split; assumption || lia.
Qed.

(** X2. With nothing to scan the scanner returns the empty list after its one
    query: when the pending-block query fails it logs the cause, and when the
    node answers with no block, a block without a transaction list or an
    empty list it logs nothing. *)
Theorem scan_without_transactions (x : FlashbotsMEVExecutor) (w : World) :
  (forall e,
      pendingBlockReply (provider x) (clock w) = Throw e ->
      scanMEVOpportunities x w
      = (Ok [],
         emit (Logged error "MEV scanning failed:" (Some e))
           (tick (Rpc eth_getBlockByNumber_pending) w)))
  /\ (pendingBlockReply (provider x) (clock w) = Ok None
      \/ (exists b,
             pendingBlockReply (provider x) (clock w) = Ok (Some b)
             /\ (pb_transactions b = None \/ pb_transactions b = Some [])) ->
      scanMEVOpportunities x w
      = (Ok [], tick (Rpc eth_getBlockByNumber_pending) w)).
Proof.
  rewrite scanMEVOpportunities_cases. cbv zeta. split.
  - intros e He. rewrite He. reflexivity.
  - intros [Hnone | (b & Hb & [Hn | Hn])].
    + rewrite Hnone. reflexivity.
    + rewrite Hb, Hn. reflexivity.
    + rewrite Hb, Hn. reflexivity.
Qed.

Lemma scan_without_transactions_witness :
  (pendingBlockReply (provider Outage.offline) (clock Scenario.start)
   = Throw "network down"
   /\ scanMEVOpportunities Outage.offline Scenario.start
      = (Ok [],
         emit (Logged error "MEV scanning failed:" (Some "network down"%string))
           (tick (Rpc eth_getBlockByNumber_pending) Scenario.start)))
  /\ (pendingBlockReply (provider Outage.flaky) (clock Scenario.start) = Ok None
      /\ scanMEVOpportunities Outage.flaky Scenario.start
         = (Ok [], tick (Rpc eth_getBlockByNumber_pending) Scenario.start)).
Proof.
  split.
  - split; [reflexivity|].
    apply (proj1 (scan_without_transactions Outage.offline Scenario.start)).
    reflexivity.
  - split; [reflexivity|].
    apply (proj2 (scan_without_transactions Outage.flaky Scenario.start)).
    left. reflexivity.
Defined.

(** ** What the scanner and the estimator return *)

(** X19. The scanner returns no opportunity, whatever the node answers: it
    issues its one query and returns the empty list; it logs
    'MEV scanning failed:' once when the query fails and when the pending
    block lists a transaction (the conversion of the first one throws), and
    nothing otherwise. *)
Theorem scanner_returns_nothing (x : FlashbotsMEVExecutor) (w : World) :
  scanMEVOpportunities x w
  = (Ok [],
     {| clock := S (clock w);
        trace := trace w ++ Rpc eth_getBlockByNumber_pending :: scanLines x w |})
  /\ (forall e,
         pendingBlockReply (provider x) (clock w) = Throw e ->
         scanLines x w = [Logged error "MEV scanning failed:" (Some e)])
  /\ (forall b txData rest,
         pendingBlockReply (provider x) (clock w) = Ok (Some b) ->
         pb_transactions b = Some (txData :: rest) ->
         scanLines x w = [scanFailedLine])
  /\ (pendingBlockReply (provider x) (clock w) = Ok None
      \/ (exists b,
             pendingBlockReply (provider x) (clock w) = Ok (Some b)
             /\ (pb_transactions b = None \/ pb_transactions b = Some [])) ->
      scanLines x w = []).
Proof.
  split; [apply scanMEVOpportunities_run|]. unfold scanLines.
  split; [|split].
  - intros e ->. reflexivity.
  - intros b txData rest -> ->. reflexivity.
  - intros [-> | (b & -> & [-> | ->])]; reflexivity.
Qed.

(** X20. The estimator returns no opportunity, whatever the transaction: it
    never throws and never queries the chain; for a transaction with an
    allow-listed recipient and a value that is not zero the comparison with
    the threshold throws and the estimator logs
    'Transaction analysis failed:', and for every other transaction (or
    none) it leaves no trace. *)
Theorem estimator_returns_nothing
    (x : FlashbotsMEVExecutor) (tx : option TransactionResponse) (w : World) :
  fst (analyzeTransaction x tx w) = Ok None
  /\ ((exists t to v,
          tx = Some t /\ tx_to t = Some to /\ allowListed to
          /\ tx_value t = Some v /\ v <> 0) ->
      snd (analyzeTransaction x tx w) = emit analysisFailedLine w)
  /\ (~ (exists t to v,
            tx = Some t /\ tx_to t = Some to /\ allowListed to
            /\ tx_value t = Some v /\ v <> 0) ->
      snd (analyzeTransaction x tx w) = w).
Proof.
  split; [apply analyzeTransaction_none|]. split.
  - intros (t & to & v & -> & Hto & Hallow & Hv & Hne).
    rewrite analyzeTransaction_cases.
    assert (Hc : comparedValue t = Some v).
    { apply comparedValue_Some. exists to. auto. }
    rewrite Hc. reflexivity.
  - intros Hno. destruct tx as [t|]; [|reflexivity].
    rewrite analyzeTransaction_cases.
    destruct (comparedValue t) as [v|] eqn:Hc; [|reflexivity].
    apply comparedValue_Some in Hc as (to & Hto & Hallow & Hv & Hne).
    elim Hno. exists t, to, v. auto 6.
Qed.

(** ** The builder *)

Lemma orElse_fallback (a : option Z) (d : Z) (w : World) :
  orElse a (Ok d) w = (Ok (fallback a d), w).
Proof. unfold orElse, fallback. destruct (truthyBigInt a); reflexivity. Qed.

(** The bundle and the world a build ends with when every step succeeds. *)
Lemma createSandwichBundle_succeeds (x : FlashbotsMEVExecutor)
    (o : MEVOpportunity) (w : World)
    (targetValue currentBlock initialNonce netProfit : Z) (feeData : FeeData)
    (sg1 sg2 : string) :
  let minerTip := Z.quot netProfit 2 in
  let priority := fallback (fee_maxPriorityFeePerGas feeData) floorPriorityFee in
  let maxFee := fallback (fee_maxFeePerGas feeData) defaultMaxFee + minerTip in
  let frontRunTx :=
    frontRunRequest (wallet x) priority maxFee (Z.quot targetValue 10)
      initialNonce in
  let backRunTx := backRunRequest (wallet x) priority maxFee initialNonce in
  truthyBigInt (targetTxValue o) = Some targetValue ->
  blockNumberReply (provider x) (clock w) = Ok currentBlock ->
  transactionCountReply (provider x) (address (wallet x)) (S (clock w))
  = Ok initialNonce ->
  Units.parseEther (profit o) = Ok netProfit ->
  feeDataReply (provider x) (S (S (clock w))) = Ok feeData ->
  signatureOf (wallet x) frontRunTx = Ok sg1 ->
  signatureOf (wallet x) backRunTx = Ok sg2 ->
  createSandwichBundle x o w
  = (Ok (Some {| transactions :=
                   [ {| signed_request := frontRunTx; signature := sg1 |};
                     {| signed_request := backRunTx; signature := sg2 |} ];
                 blockNumber := currentBlock + 1 |}),
     {| clock := S (S (S (clock w)));
        trace := trace w
                 ++ [ Rpc eth_blockNumber;
                      Rpc (eth_getTransactionCount (address (wallet x)));
                      Logged info (tipLogMessage o minerTip) None;
                      Rpc eth_feeData;
                      SignRequested frontRunTx;
                      SignRequested backRunTx ] |}).
Proof.
  cbv zeta. intros Htv Hblock Hcount Hprofit Hfee Hsg1 Hsg2.
  unfold createSandwichBundle, tryCatch. rewrite Htv.
  rewrite parseUnits_floor, parseUnits_defaultMaxFee.
  unfold bind at 1. unfold getBlockNumber, rpc at 1. rewrite Hblock.
  unfold bind at 1. unfold getTransactionCount, rpc at 1.
  cbn [tick clock]. rewrite Hcount.
  unfold bind at 1. unfold liftResult at 1. rewrite Hprofit.
  unfold bind at 1. unfold log at 1.
  unfold bind at 1. unfold getFeeData, rpc at 1.
  cbn [tick emit clock]. rewrite Hfee.
  unfold bind at 1. rewrite orElse_fallback.
  unfold bind at 1. rewrite orElse_fallback.
  unfold bind at 1. unfold signTransaction at 1. rewrite Hsg1.
  unfold bind at 1. unfold signTransaction at 1. rewrite Hsg2.
  unfold ret, emit, tick, tipLogMessage. cbn [clock trace].
  repeat rewrite <- app_assoc. reflexivity.
Qed.

Lemma truthyBigInt_iff (a : option Z) (v : Z) :
  truthyBigInt a = Some v <-> a = Some v /\ v <> 0.
Proof.
  split; [apply truthyBigInt_Some|].
  intros [-> Hv]. unfold truthyBigInt.
  destruct (Z.eqb_spec v 0); [contradiction | reflexivity].
Qed.

(** X6. A target value of zero counts as missing: the builder returns nothing
    and only logs the missing-value error, as it does for an absent value. *)
Theorem builder_treats_zero_value_as_missing
    (x : FlashbotsMEVExecutor) (o : MEVOpportunity) (w : World) :
  targetTxValue o = Some 0 ->
  createSandwichBundle x o w
  = (Ok None, emit (Logged error missingValueMessage None) w).
Proof.
  intros Hzero. unfold createSandwichBundle. rewrite Hzero. reflexivity.
Qed.

(** X7. The builder returns a bundle exactly when the opportunity carries a
    nonzero target value, the block-height, nonce and fee queries succeed,
    the profit string reads as an amount, and the wallet signs both requests;
    the bundle is then made of those two signed requests. *)
Theorem builder_succeeds_exactly_when
    (x : FlashbotsMEVExecutor) (o : MEVOpportunity) (w : World)
    (b : BundleRequest) :
  fst (createSandwichBundle x o w) = Ok (Some b)
  <-> exists targetValue currentBlock initialNonce netProfit feeData sg1 sg2,
      let priority :=
        fallback (fee_maxPriorityFeePerGas feeData) floorPriorityFee in
      let maxFee :=
        fallback (fee_maxFeePerGas feeData) defaultMaxFee + Z.quot netProfit 2 in
      let frontRunTx :=
        frontRunRequest (wallet x) priority maxFee (Z.quot targetValue 10)
          initialNonce in
      let backRunTx := backRunRequest (wallet x) priority maxFee initialNonce in
      targetTxValue o = Some targetValue
      /\ targetValue <> 0
      /\ blockNumberReply (provider x) (clock w) = Ok currentBlock
      /\ transactionCountReply (provider x) (address (wallet x)) (S (clock w))
         = Ok initialNonce
      /\ Units.parseEther (profit o) = Ok netProfit
      /\ feeDataReply (provider x) (S (S (clock w))) = Ok feeData
      /\ signatureOf (wallet x) frontRunTx = Ok sg1
      /\ signatureOf (wallet x) backRunTx = Ok sg2
      /\ b = {| transactions :=
                  [ {| signed_request := frontRunTx; signature := sg1 |};
                    {| signed_request := backRunTx; signature := sg2 |} ];
                blockNumber := currentBlock + 1 |}.
Proof.
  split.
  - intros H. apply fst_snd_eq in H.
    apply createSandwichBundle_built in H
      as (tv & cb & n & np & fd & sg1 & sg2
          & Htv & Hblock & Hcount & Hprofit & Hfee & Hsg1 & Hsg2 & Hb & _).
    apply truthyBigInt_iff in Htv as [Htv Hnz].
    exists tv, cb, n, np, fd, sg1, sg2. cbv zeta. repeat split; assumption.
  - intros (tv & cb & n & np & fd & sg1 & sg2 & H). cbv zeta in H.
    destruct H as (Htv & Hnz & Hblock & Hcount & Hprofit & Hfee & Hsg1 & Hsg2 & ->).
    assert (Htruthy : truthyBigInt (targetTxValue o) = Some tv)
      by (apply truthyBigInt_iff; split; assumption).
    rewrite (createSandwichBundle_succeeds x o w tv cb n np fd sg1 sg2
               Htruthy Hblock Hcount Hprofit Hfee Hsg1 Hsg2).
    reflexivity.
Qed.

(** X8. Both transactions of a returned bundle are sent from the wallet's own
    address on chain 1 with a gas limit of 300000. *)
Theorem bundle_sender_chain_and_gas
    (x : FlashbotsMEVExecutor) (o : MEVOpportunity) (w : World)
    (b : BundleRequest) :
  fst (createSandwichBundle x o w) = Ok (Some b) ->
  Forall (fun t => req_from (signed_request t) = address (wallet x)
                   /\ chainId (signed_request t) = 1
                   /\ gasLimit (signed_request t) = 300000)
         (transactions b).
Proof.
  intros H. apply fst_snd_eq in H.
  apply createSandwichBundle_built in H
    as (tv & cb & n & np & fd & sg1 & sg2
        & _ & _ & _ & _ & _ & _ & _ & -> & _).
  cbn [transactions]. repeat constructor.
Qed.

Lemma bundle_sender_chain_and_gas_witness :
  fst (createSandwichBundle Scenario.executor Scenario.opportunity Scenario.start)
  = Ok (Some Scenario.bundle)
  /\ Forall (fun t => req_from (signed_request t)
                      = address (wallet Scenario.executor)
                      /\ chainId (signed_request t) = 1
                      /\ gasLimit (signed_request t) = 300000)
            (transactions Scenario.bundle).
Proof.
  split; [vm_compute; reflexivity|].
  apply (bundle_sender_chain_and_gas
           Scenario.executor Scenario.opportunity Scenario.start Scenario.bundle).
  vm_compute. reflexivity.
Defined.

Lemma builder_treats_zero_value_as_missing_witness :
  targetTxValue
    {| opp_type := sandwich; profit := "0.0"; opp_transactions := [];
       targetBlock := 101; targetTxValue := Some 0 |} = Some 0
  /\ createSandwichBundle Scenario.executor
       {| opp_type := sandwich; profit := "0.0"; opp_transactions := [];
          targetBlock := 101; targetTxValue := Some 0 |} Scenario.start
     = (Ok None, emit (Logged error missingValueMessage None) Scenario.start).
Proof.
  split; [reflexivity|].
  apply (builder_treats_zero_value_as_missing Scenario.executor
           {| opp_type := sandwich; profit := "0.0"; opp_transactions := [];
              targetBlock := 101; targetTxValue := Some 0 |} Scenario.start).
  reflexivity.
Defined.

Lemma stationary_build (x : FlashbotsMEVExecutor) (o : MEVOpportunity)
    (w w' : World) (b : BundleRequest) :
  stationary (provider x) ->
  fst (createSandwichBundle x o w) = Ok (Some b) ->
  fst (createSandwichBundle x o w') = Ok (Some b).
Proof.
  intros Hst H. apply fst_snd_eq in H.
  apply createSandwichBundle_built in H
    as (tv & cb & n & np & fd & sg1 & sg2
        & Htv & Hblock & Hcount & Hprofit & Hfee & Hsg1 & Hsg2 & -> & _).
  destruct (Hst (clock w') (clock w)) as (Hb & _ & _).
  destruct (Hst (S (clock w')) (S (clock w))) as (_ & Hc & _).
  destruct (Hst (S (S (clock w'))) (S (S (clock w)))) as (_ & _ & Hf).
  rewrite <- Hb in Hblock. rewrite <- Hc in Hcount. rewrite <- Hf in Hfee.
  rewrite (createSandwichBundle_succeeds x o w' tv cb n np fd sg1 sg2
             Htv Hblock Hcount Hprofit Hfee Hsg1 Hsg2).
  reflexivity.
Qed.

(** X10. The builder keeps no state of its own: while the chain client's
    answers do not change, building the same opportunity again, in
    particular right after a first build, gives the same result, with the
    same two nonces. *)
Theorem rebuild_reuses_the_nonces
    (x : FlashbotsMEVExecutor) (o : MEVOpportunity) (w w' : World) :
  stationary (provider x) ->
  fst (createSandwichBundle x o w') = fst (createSandwichBundle x o w)
  /\ fst (createSandwichBundle x o (snd (createSandwichBundle x o w)))
     = fst (createSandwichBundle x o w).
Proof.
  intros Hst.
  assert (Hany : forall w1 w2,
             fst (createSandwichBundle x o w1) = fst (createSandwichBundle x o w2)).
  { intros w1 w2.
    destruct (createSandwichBundle_total x o w1) as (r1 & w1' & H1).
    destruct (createSandwichBundle_total x o w2) as (r2 & w2' & H2).
    destruct r1 as [b1|].
    - rewrite H1. cbn [fst]. symmetry.
      apply (stationary_build x o w1 w2 b1 Hst). rewrite H1. reflexivity.
    - destruct r2 as [b2|].
      + rewrite H2. cbn [fst].
        apply (stationary_build x o w2 w1 b2 Hst). rewrite H2. reflexivity.
      + rewrite H1, H2. reflexivity. }
  split; apply Hany.
Qed.

Lemma rebuild_reuses_the_nonces_witness :
  stationary (provider Scenario.executor)
  /\ fst (createSandwichBundle Scenario.executor Scenario.opportunity
            (snd (scanMEVOpportunities Scenario.executor Scenario.start)))
     = fst (createSandwichBundle Scenario.executor Scenario.opportunity
              Scenario.start)
  /\ fst (createSandwichBundle Scenario.executor Scenario.opportunity
            (snd (createSandwichBundle Scenario.executor Scenario.opportunity
                    Scenario.start)))
     = fst (createSandwichBundle Scenario.executor Scenario.opportunity
              Scenario.start).
Proof.
  assert (Hst : stationary (provider Scenario.executor)).
  { intros k k'. repeat split. }
  split; [exact Hst|].
  apply (rebuild_reuses_the_nonces Scenario.executor Scenario.opportunity
           Scenario.start
           (snd (scanMEVOpportunities Scenario.executor Scenario.start)) Hst).
Defined.

(** ** The submitter's effects *)

(** What a submission leaves behind. *)
Lemma executeBundle_effects
    (x : FlashbotsMEVExecutor) (b : BundleRequest) (w : World) :
  exists evs,
    trace (snd (executeBundle x b w)) = trace w ++ evs
    /\ clock (snd (executeBundle x b w)) = clock w
    /\ bundlesSent evs = [(transactions b, blockNumber b)]
    /\ rpcs evs = []
    /\ signRequests evs = []
    /\ inclusionWaits evs
       = match sendBundleReply (flashbotsProvider x) (transactions b)
                 (blockNumber b) with
         | Ok _ => 1%nat
         | Throw _ => 0%nat
         end.
Proof.
  pose proof (executeBundle_cases x b w) as H. cbv zeta in H.
  destruct (sendBundleReply (flashbotsProvider x) (transactions b) (blockNumber b))
    as [s|e].
  - destruct (waitReply s) as [r|e].
    + destruct (hasError r) as [[|]|e]; rewrite H; cbn [snd clock trace];
        eexists; (split; [reflexivity|]); repeat split.
    + rewrite H; cbn [snd clock trace].
      eexists; (split; [reflexivity|]); repeat split.
  - rewrite H; cbn [snd clock trace].
    eexists; (split; [reflexivity|]); repeat split.
Qed.

(** X11. No retry: a call of the submitter hands the bundle to the relay
    exactly once, with the bundle's own transactions and target block; it
    waits for inclusion once when the relay accepted the bundle and not at
    all otherwise; it queries no chain state and signs nothing. *)
Theorem submitter_sends_once
    (x : FlashbotsMEVExecutor) (b : BundleRequest) (w : World) :
  exists evs,
    trace (snd (executeBundle x b w)) = trace w ++ evs
    /\ clock (snd (executeBundle x b w)) = clock w
    /\ bundlesSent evs = [(transactions b, blockNumber b)]
    /\ rpcs evs = []
    /\ signRequests evs = []
    /\ inclusionWaits evs
       = match sendBundleReply (flashbotsProvider x) (transactions b)
                 (blockNumber b) with
         | Ok _ => 1%nat
         | Throw _ => 0%nat
         end.
Proof.
  pose proof (executeBundle_cases x b w) as H. cbv zeta in H.
  destruct (sendBundleReply (flashbotsProvider x) (transactions b) (blockNumber b))
    as [s|e].
  - destruct (waitReply s) as [r|e].
    + destruct (hasError r) as [[|]|e]; rewrite H; cbn [snd clock trace];
        eexists; (split; [reflexivity|]); repeat split.
    + rewrite H; cbn [snd clock trace].
      eexists; (split; [reflexivity|]); repeat split.
  - rewrite H; cbn [snd clock trace].
    eexists; (split; [reflexivity|]); repeat split.
Qed.

(** * Properties of the application module *)

(** ** One cycle of the scheduler *)

Lemma executeBundle_total (x : FlashbotsMEVExecutor) (b : BundleRequest)
    (w : World) :
  exists ok w', executeBundle x b w = (Ok ok, w').
Proof. unfold executeBundle. apply tryCatch_handled. Qed.

Lemma scanned_is_sandwich (x : FlashbotsMEVExecutor) (w w1 : World)
    (found : list MEVOpportunity) (o : MEVOpportunity) :
  scanMEVOpportunities x w = (Ok found, w1) ->
  In o found ->
  opp_type o = sandwich.
Proof.
  intros Hscan Ho.
  rewrite scanMEVOpportunities_cases in Hscan.
  inversion Hscan. subst found. destruct Ho.
Qed.

(** The [try] block of the scheduler never throws; it leaves the chain and
    relay side as the scan, the build for the first opportunity and the
    submission of the built bundle leave it, and adds only log lines to the
    journal. *)
Lemma cycle_outcome (x : FlashbotsMEVExecutor) (a : Application.AppState) :
  exists lines,
    Application.cycle x a
    = (Ok tt, inWorld a (cycleWorld x (Application.world a)) lines)
    /\ Forall isLogLine lines.
Proof.
  unfold Application.cycle, cycleWorld, Application.abind, Application.call.
  destruct (scanMEVOpportunities_total x (Application.world a))
    as (found & w1 & Hscan).
  rewrite Hscan. destruct found as [|o rest].
  - exists []. unfold Application.aret, inWorld. rewrite app_nil_r.
    split; [reflexivity | constructor].
  - rewrite (scanned_is_sandwich x _ _ _ o Hscan (or_introl eq_refl)).
    unfold Application.logger at 1 2.
    cbn [Application.world Application.journal Application.timers
         Application.flashbotsExecutor].
    destruct (createSandwichBundle_total x o w1) as (r & w2 & Hbuild).
    rewrite Hbuild. cbv beta iota.
    cbn [Application.world Application.journal Application.timers
         Application.flashbotsExecutor].
    destruct r as [b|].
    + destruct (executeBundle_total x b w2) as (ok & w3 & Hrun).
      cbv beta iota.
      cbn [Application.world Application.journal Application.timers
           Application.flashbotsExecutor].
      rewrite Hrun. cbv beta iota. cbn [snd].
      destruct ok; unfold Application.logger, inWorld;
        cbn [Application.world Application.journal Application.timers
             Application.flashbotsExecutor];
        eexists; repeat rewrite <- app_assoc;
        (split; [reflexivity | repeat constructor]).
    + unfold Application.logger, inWorld;
        cbn [Application.world Application.journal Application.timers
             Application.flashbotsExecutor].
      eexists; repeat rewrite <- app_assoc;
        (split; [reflexivity | repeat constructor]).
Qed.

Lemma mevScanLoop_outcome (a : Application.AppState) :
  match Application.executorOf (Application.flashbotsExecutor a) with
  | None => Application.mevScanLoop a = (Ok tt, a)
  | Some x =>
      exists lines,
        Forall isLogLine lines
        /\ Application.mevScanLoop a
           = (Ok tt,
              {| Application.world := cycleWorld x (Application.world a);
                 Application.journal :=
                   Application.journal a
                   ++ lines ++ [Application.TimerArmed 5000];
                 Application.timers := Application.timers a ++ [5000];
                 Application.flashbotsExecutor :=
                   Application.flashbotsExecutor a |})
  end.
Proof.
  unfold Application.mevScanLoop.
  destruct (Application.executorOf (Application.flashbotsExecutor a)) as [x|];
    [|reflexivity].
  destruct (cycle_outcome x a) as (lines & Hcycle & Hlines).
  exists lines. split; [exact Hlines|].
  unfold Application.abind, Application.atry. rewrite Hcycle.
  unfold Application.setTimeout, inWorld, Application.MEV_SCAN_INTERVAL.
  cbn [Application.world Application.journal Application.timers
       Application.flashbotsExecutor].
  rewrite <- app_assoc. reflexivity.
Qed.

Lemma timersArmed_log_lines (lines : list Application.AppEvent) :
  Forall isLogLine lines -> timersArmed lines = [].
Proof.
  induction 1 as [|ev evs Hev _ IH]; [reflexivity|].
  destruct ev; cbn in Hev; [|contradiction]. cbn. exact IH.
Qed.

(** X12. A call of the scheduler never throws.  Without an executor it does
    nothing and arms no timer, so the loop ends; with an executor it arms
    exactly one timer, of 5000 ms, as the last thing it does, whatever
    happened in the cycle, and leaves the global executor as it is. *)
Theorem scheduler_rearms_once (a : Application.AppState) :
  exists a',
    Application.mevScanLoop a = (Ok tt, a')
    /\ Application.flashbotsExecutor a' = Application.flashbotsExecutor a
    /\ (Application.flashbotsExecutor a = Application.NoExecutor -> a' = a)
    /\ (Application.flashbotsExecutor a <> Application.NoExecutor ->
        Application.timers a' = Application.timers a ++ [5000]
        /\ exists lines,
            Application.journal a'
            = Application.journal a ++ lines ++ [Application.TimerArmed 5000]
            /\ timersArmed lines = []).
Proof.
  pose proof (mevScanLoop_outcome a) as H.
  destruct (Application.flashbotsExecutor a) as [|p k|x] eqn:Hslot;
    cbn [Application.executorOf] in H.
  - exists a. rewrite H. split; [reflexivity|]. split; [exact Hslot|].
    split; [reflexivity|]. intros Hne. contradiction.
  - destruct H as (lines & Hlines & ->). eexists. split; [reflexivity|].
    cbn [Application.flashbotsExecutor Application.timers Application.journal].
    split; [reflexivity|]. split; [discriminate|]. intros _.
    split; [reflexivity|].
    exists lines. split; [reflexivity | apply timersArmed_log_lines; exact Hlines].
  - destruct H as (lines & Hlines & ->). eexists. split; [reflexivity|].
    cbn [Application.flashbotsExecutor Application.timers Application.journal].
    split; [reflexivity|]. split; [discriminate|]. intros _.
    split; [reflexivity|].
    exists lines. split; [reflexivity | apply timersArmed_log_lines; exact Hlines].
Qed.

Lemma builderEvent_sends_nothing (o : MEVOpportunity) (evs : list Event) :
  Forall (builderEvent o) evs -> bundlesSent evs = [].
Proof.
  induction 1 as [|ev evs Hev _ IH]; [reflexivity|].
  destruct ev; cbn in Hev; try contradiction; cbn; exact IH.
Qed.

(** What one cycle does on the chain and relay side. *)
Lemma cycleWorld_effects (x : FlashbotsMEVExecutor) (w : World) :
  exists found w1 evs,
    scanMEVOpportunities x w = (Ok found, w1)
    /\ trace (cycleWorld x w) = trace w ++ evs
    /\ match found with
       | [] => bundlesSent evs = [] /\ signRequests evs = []
       | o :: _ =>
           match fst (createSandwichBundle x o w1) with
           | Ok (Some b) =>
               bundlesSent evs = [(transactions b, blockNumber b)]
               /\ signRequests evs = map signed_request (transactions b)
           | _ => bundlesSent evs = []
           end
       end.
Proof.
  destruct (scanMEVOpportunities_effects x w)
    as (found & w1 & evs1 & Hscan & _ & _ & Ht1 & Hevs1 & _).
  destruct (scannerEvent_quiet evs1 Hevs1) as (Hb1 & Hs1 & _).
  exists found, w1. unfold cycleWorld. rewrite Hscan.
  destruct found as [|o rest].
  - exists evs1. repeat split; assumption.
  - destruct (createSandwichBundle_total x o w1) as (r & w2 & Hbuild).
    rewrite Hbuild. cbn [fst].
    destruct (createSandwichBundle_events x o w1) as (evs2 & Ht2 & Hevs2).
    rewrite Hbuild in Ht2. cbn [snd] in Ht2.
    pose proof (builderEvent_sends_nothing o evs2 Hevs2) as Hb2.
    destruct r as [b|].
    + destruct (executeBundle_effects x b w2)
        as (evs3 & Ht3 & _ & Hb3 & _ & Hs3 & _).
      exists (evs1 ++ evs2 ++ evs3). split; [reflexivity|].
      split; [rewrite Ht3, Ht2, Ht1; repeat rewrite <- app_assoc; reflexivity|].
      repeat rewrite bundlesSent_app. repeat rewrite signRequests_app.
      rewrite Hb1, Hb2, Hb3, Hs1, Hs3. cbn [app]. split; [reflexivity|].
      rewrite app_nil_r.
      destruct (createSandwichBundle_built _ _ _ _ _ Hbuild)
        as (tv & cb & n & np & fd & sg1 & sg2
            & _ & _ & _ & _ & _ & _ & _ & -> & Hw2).
      rewrite Hw2 in Ht2. cbn [trace] in Ht2.
      apply app_inv_head in Ht2. subst evs2. reflexivity.
    + exists (evs1 ++ evs2). split; [reflexivity|].
      split; [rewrite Ht2, Ht1; rewrite <- app_assoc; reflexivity|].
      rewrite bundlesSent_app, Hb1, Hb2. reflexivity.
Qed.



(** The concrete cycle: the pending block lists the two transfers, the scan
    ends at the first of them, nothing is built or sent, and the timer is
    armed again. *)
Example cycle_in_the_scenario :
  fst (scanMEVOpportunities Scenario.executor Scenario.start) = Ok []
  /\ trace (Application.world (snd (Application.fireTimer Deployment.waiting)))
     = [Rpc eth_getBlockByNumber_pending; scanFailedLine]
  /\ Application.timers (snd (Application.fireTimer Deployment.waiting))
     = [5000].
Proof. repeat split; vm_compute; reflexivity. Qed.

(** ** C9: what the scanner hands to the builder *)

(** A cycle is its scan: the scan returns nothing to build from. *)
Lemma cycleWorld_scan (x : FlashbotsMEVExecutor) (w : World) :
  cycleWorld x w = snd (scanMEVOpportunities x w).
Proof. unfold cycleWorld. rewrite scanMEVOpportunities_cases. reflexivity. Qed.


(** ** The timer loop *)

Lemma fireTimer_step (a : Application.AppState) :
  (List.length (Application.timers a) <= 1)%nat ->
  exists a' evs,
    Application.fireTimer a = (Ok tt, a')
    /\ trace (Application.world a') = trace (Application.world a) ++ evs
    /\ (List.length (bundlesSent evs) <= 1)%nat
    /\ (List.length (Application.timers a') <= 1)%nat
    /\ Application.flashbotsExecutor a' = Application.flashbotsExecutor a
    /\ (Application.timers a = []
        \/ Application.flashbotsExecutor a = Application.NoExecutor ->
        Application.world a' = Application.world a
        /\ Application.timers a' = []).
Proof.
  intros Hlen. unfold Application.fireTimer.
  destruct (Application.timers a) as [|d rest] eqn:Htimers.
  - exists a, []. rewrite app_nil_r, Htimers. repeat split; cbn; lia.
  - assert (rest = []) as -> by (destruct rest; [reflexivity | cbn in Hlen; lia]).
    set (a0 := {| Application.world := Application.world a;
                  Application.journal := Application.journal a;
                  Application.timers := [];
                  Application.flashbotsExecutor :=
                    Application.flashbotsExecutor a |}).
    pose proof (mevScanLoop_outcome a0) as H.
    cbn [a0 Application.flashbotsExecutor] in H.
    destruct (Application.executorOf (Application.flashbotsExecutor a))
      as [x|] eqn:Hx.
    + destruct H as (lines & _ & ->).
      destruct (cycleWorld_effects x (Application.world a))
        as (found & w1 & evs & _ & Htrace & Hcases).
      eexists _, evs. split; [reflexivity|].
      cbn [Application.world Application.timers Application.flashbotsExecutor a0].
      split; [exact Htrace|]. split.
      * destruct found as [|o ?]; [destruct Hcases as [-> _]; cbn; lia|].
        destruct (fst (createSandwichBundle x o w1)) as [[b|]|e];
          [destruct Hcases as [-> _] | rewrite Hcases..]; cbn; lia.
      * split; [cbn; lia|]. split; [reflexivity|].
        intros [Hno | Hno]; [discriminate|].
        rewrite Hno in Hx. discriminate.
    + rewrite H. exists a0, []. split; [reflexivity|].
      cbn [a0 Application.world Application.timers Application.flashbotsExecutor].
      rewrite app_nil_r. repeat split; cbn; lia.
Qed.

(** X14. Cycles do not overlap and do not multiply: from a state with at most
    one armed timer, any number n of timer firings never throws, leaves at
    most one armed timer and the global executor unchanged, and hands at most
    n bundles to the relay; with no armed timer, or with no executor, nothing
    is sent or queried at all. *)
Theorem timer_loop_invariant (n : nat) :
  forall a,
    (List.length (Application.timers a) <= 1)%nat ->
    exists a' evs,
      Application.runTimers n a = (Ok tt, a')
      /\ trace (Application.world a') = trace (Application.world a) ++ evs
      /\ (List.length (bundlesSent evs) <= n)%nat
      /\ (List.length (Application.timers a') <= 1)%nat
      /\ Application.flashbotsExecutor a' = Application.flashbotsExecutor a
      /\ (Application.timers a = []
          \/ Application.flashbotsExecutor a = Application.NoExecutor ->
          Application.world a' = Application.world a).
Proof.
  induction n as [|n IH]; intros a Hlen.
  - exists a, []. rewrite app_nil_r. repeat split; cbn; lia.
  - cbn [Application.runTimers]. unfold Application.abind.
    destruct (fireTimer_step a Hlen)
      as (a1 & evs1 & Hfire & Ht1 & Hb1 & Hlen1 & Hslot1 & Hidle1).
    rewrite Hfire.
    destruct (IH a1 Hlen1) as (a' & evs2 & Hrun & Ht2 & Hb2 & Hlen' & Hslot' & Hidle2).
    exists a', (evs1 ++ evs2). split; [exact Hrun|].
    split; [rewrite Ht2, Ht1, app_assoc; reflexivity|].
    split; [rewrite bundlesSent_app, length_app; lia|].
    split; [exact Hlen'|]. split; [congruence|].
    intros Hidle. destruct (Hidle1 Hidle) as [Hw1 Htm1].
    rewrite (Hidle2 (or_introl Htm1)). exact Hw1.
Qed.

Lemma timer_loop_invariant_witness :
  (List.length (Application.timers Deployment.waiting) <= 1)%nat
  /\ exists a' evs,
      Application.runTimers 3 Deployment.waiting = (Ok tt, a')
      /\ trace (Application.world a')
         = trace (Application.world Deployment.waiting) ++ evs
      /\ (List.length (bundlesSent evs) <= 3)%nat
      /\ (List.length (Application.timers a') <= 1)%nat
      /\ Application.flashbotsExecutor a'
         = Application.flashbotsExecutor Deployment.waiting
      /\ (Application.timers Deployment.waiting = []
          \/ Application.flashbotsExecutor Deployment.waiting
             = Application.NoExecutor ->
          Application.world a' = Application.world Deployment.waiting).
Proof.
  split; [cbn; lia|].
  apply (timer_loop_invariant 3 Deployment.waiting). cbn. lia.
Defined.

(** ** Start-up *)

Lemma usableKey_Some (pf : Application.Platform) (key : string) :
  usableKey pf = Some key
  <-> Application.WALLET_PRIVATE_KEY pf = Some key
      /\ key <> EmptyString
      /\ key <> Application.placeholderKey.
Proof.
  unfold usableKey. split.
  - destruct (truthyString (Application.WALLET_PRIVATE_KEY pf)) as [k|] eqn:Hk;
      [|discriminate].
    apply truthyString_Some in Hk as [Hk Hne].
    destruct (String.eqb_spec k Application.placeholderKey); [discriminate|].
    intros H. inversion H. subst. repeat split; assumption.
  - intros (Hk & Hne & Hph).
    assert (Ht : truthyString (Application.WALLET_PRIVATE_KEY pf) = Some key)
      by (apply truthyString_Some; split; assumption).
    rewrite Ht.
    destruct (String.eqb_spec key Application.placeholderKey);
      [contradiction | reflexivity].
Qed.

Lemma usableKey_None (pf : Application.Platform) :
  Application.WALLET_PRIVATE_KEY pf = None
  \/ Application.WALLET_PRIVATE_KEY pf = Some EmptyString
  \/ Application.WALLET_PRIVATE_KEY pf = Some Application.placeholderKey ->
  usableKey pf = None.
Proof.
  unfold usableKey. intros [-> | [-> | ->]]; reflexivity.
Qed.

Lemma mevScanLoop_total (a : Application.AppState) :
  exists a', Application.mevScanLoop a = (Ok tt, a').
Proof.
  pose proof (mevScanLoop_outcome a) as H.
  destruct (Application.executorOf (Application.flashbotsExecutor a)).
  - destruct H as (lines & _ & H). eexists. exact H.
  - exists a. exact H.
Qed.

(** The ways the start-up goes. *)
Lemma start_outcome (pf : Application.Platform) (a : Application.AppState) :
  match usableKey pf with
  | None =>
      Application.initializeFlashbots pf a
      = (Ok tt, inWorld a (Application.world a) [disabledLine])
  | Some key =>
      match Application.newExecutor pf (rpcUrlOf pf) key with
      | Throw e =>
          Application.initializeFlashbots pf a
          = (Ok tt, inWorld a (Application.world a) [startFailedLine e])
      | Ok (p, k) =>
          match Application.createRelay pf p k with
          | Throw e =>
              Application.initializeFlashbots pf a
              = (Ok tt,
                 {| Application.world :=
                      emit (Logged error "Failed to initialize Flashbots:" (Some e))
                        (Application.world a);
                    Application.journal :=
                      Application.journal a ++ [startFailedLine e];
                    Application.timers := Application.timers a;
                    Application.flashbotsExecutor := Application.Constructed p k |})
          | Ok r =>
              Application.initializeFlashbots pf a
              = Application.mevScanLoop
                  {| Application.world :=
                       emit (Logged info "Flashbots provider initialized" None)
                         (Application.world a);
                     Application.journal :=
                       Application.journal a
                       ++ [Application.AppLogged Application.app_info
                             "Flashbots MEV executor initialized" None];
                     Application.timers := Application.timers a;
                     Application.flashbotsExecutor :=
                       Application.Initialized
                         {| provider := p; flashbotsProvider := r; wallet := k |} |}
          end
      end
  end.
Proof.
  unfold Application.initializeFlashbots, Application.atry.
  fold (usableKey pf). fold (rpcUrlOf pf).
  destruct (usableKey pf) as [key|]; [|reflexivity].
  unfold Application.abind, Application.liftR, Application.assign,
    Application.call, Application.logger,
    initializeFlashbots, tryCatch, bind, liftResult, log, ret.
  destruct (Application.newExecutor pf (rpcUrlOf pf) key) as [[p k]|e];
    [|reflexivity].
  cbn [Application.world Application.journal Application.timers
       Application.flashbotsExecutor].
  destruct (Application.createRelay pf p k) as [r|e]; [|reflexivity].
  cbn [Application.world Application.journal Application.timers
       Application.flashbotsExecutor].
  match goal with
  | |- context [Application.mevScanLoop ?s] =>
      destruct (mevScanLoop_total s) as (a' & Hloop); rewrite Hloop
  end.
  reflexivity.
Qed.

Lemma runTimers_idle (n : nat) (a : Application.AppState) :
  Application.timers a = [] -> Application.runTimers n a = (Ok tt, a).
Proof.
  intros Hidle. induction n as [|n IH]; [reflexivity|].
  cbn [Application.runTimers]. unfold Application.abind, Application.fireTimer.
  rewrite Hidle. exact IH.
Qed.

(** X15. Without a usable private key (absent, empty, or left at the value of
    the sample configuration) the start-up only logs that MEV is disabled:
    no executor is constructed, no timer is armed, and however long the
    runtime goes on nothing is queried, signed or sent. *)
Theorem start_without_key_runs_nothing
    (pf : Application.Platform) (a : Application.AppState) (n : nat) :
  Application.WALLET_PRIVATE_KEY pf = None
  \/ Application.WALLET_PRIVATE_KEY pf = Some EmptyString
  \/ Application.WALLET_PRIVATE_KEY pf = Some Application.placeholderKey ->
  Application.timers a = [] ->
  Application.abind (Application.initializeFlashbots pf)
    (fun _ => Application.runTimers n) a
  = (Ok tt, inWorld a (Application.world a) [disabledLine]).
Proof.
  intros Hkey Hidle.
  pose proof (start_outcome pf a) as H. rewrite (usableKey_None pf Hkey) in H.
  unfold Application.abind. rewrite H.
  apply runTimers_idle. exact Hidle.
Qed.

Lemma start_without_key_runs_nothing_witness :
  (Application.WALLET_PRIVATE_KEY Deployment.sample = None
   \/ Application.WALLET_PRIVATE_KEY Deployment.sample = Some EmptyString
   \/ Application.WALLET_PRIVATE_KEY Deployment.sample
      = Some Application.placeholderKey)
  /\ Application.timers Deployment.boot = []
  /\ Application.abind (Application.initializeFlashbots Deployment.sample)
       (fun _ => Application.runTimers 5) Deployment.boot
     = (Ok tt,
        inWorld Deployment.boot (Application.world Deployment.boot)
          [disabledLine]).
Proof.
  split; [right; right; reflexivity|]. split; [reflexivity|].
  apply (start_without_key_runs_nothing Deployment.sample Deployment.boot 5).
  - right; right; reflexivity.
  - reflexivity.
Defined.

(** X16. A failing start-up is contained: when the executor's constructor
    throws, or the relay client cannot be created, the start-up does not
    throw, logs the error, arms no timer and starts no cycle, so nothing is
    queried, signed or sent afterwards either.  After a failed relay
    creation the global keeps the executor without a relay client; after a
    failed constructor it keeps its old value. *)
Theorem start_failure_is_contained
    (pf : Application.Platform) (a : Application.AppState)
    (key e : string) (n : nat) :
  Application.WALLET_PRIVATE_KEY pf = Some key ->
  key <> EmptyString ->
  key <> Application.placeholderKey ->
  Application.timers a = [] ->
  (Application.newExecutor pf (rpcUrlOf pf) key = Throw e ->
   Application.abind (Application.initializeFlashbots pf)
     (fun _ => Application.runTimers n) a
   = (Ok tt, inWorld a (Application.world a) [startFailedLine e]))
  /\ (forall p k,
         Application.newExecutor pf (rpcUrlOf pf) key = Ok (p, k) ->
         Application.createRelay pf p k = Throw e ->
         Application.abind (Application.initializeFlashbots pf)
           (fun _ => Application.runTimers n) a
         = (Ok tt,
            {| Application.world :=
                 emit (Logged error "Failed to initialize Flashbots:" (Some e))
                   (Application.world a);
               Application.journal :=
                 Application.journal a ++ [startFailedLine e];
               Application.timers := [];
               Application.flashbotsExecutor := Application.Constructed p k |})).
Proof.
  intros Hkey Hne Hph Hidle.
  assert (Hu : usableKey pf = Some key)
    by (apply usableKey_Some; repeat split; assumption).
  pose proof (start_outcome pf a) as H. rewrite Hu in H. split.
  - intros Hnew. rewrite Hnew in H.
    unfold Application.abind. rewrite H.
    apply runTimers_idle. exact Hidle.
  - intros p k Hnew Hrelay. rewrite Hnew, Hrelay in H.
    unfold Application.abind. rewrite H. rewrite Hidle.
    apply runTimers_idle. reflexivity.
Qed.

Lemma start_failure_is_contained_witness :
  (Application.WALLET_PRIVATE_KEY Deployment.noRelay = Some "0xkey"%string
   /\ "0xkey"%string <> EmptyString
   /\ "0xkey"%string <> Application.placeholderKey
   /\ Application.timers Deployment.boot = []
   /\ Application.newExecutor Deployment.noRelay (rpcUrlOf Deployment.noRelay)
        "0xkey" = Ok (Scenario.chain, Scenario.signer)
   /\ Application.createRelay Deployment.noRelay Scenario.chain Scenario.signer
      = Throw "relay unreachable")
  /\ Application.abind (Application.initializeFlashbots Deployment.noRelay)
       (fun _ => Application.runTimers 5) Deployment.boot
     = (Ok tt,
        {| Application.world :=
             emit (Logged error "Failed to initialize Flashbots:"
                     (Some "relay unreachable"%string))
               (Application.world Deployment.boot);
           Application.journal :=
             Application.journal Deployment.boot
             ++ [startFailedLine "relay unreachable"];
           Application.timers := [];
           Application.flashbotsExecutor :=
             Application.Constructed Scenario.chain Scenario.signer |}).
Proof.
  split; [repeat split; try reflexivity; discriminate|].
  apply (proj2 (start_failure_is_contained Deployment.noRelay Deployment.boot
                  "0xkey" "relay unreachable" 5
                  eq_refl ltac:(discriminate) ltac:(discriminate) eq_refl)
           Scenario.chain Scenario.signer);
    reflexivity.
Defined.

(** X17. A successful start-up leaves an initialised executor in the global,
    holding the relay client that was created, runs the first cycle at once
    and arms the timer for the next one. *)
Theorem start_runs_first_cycle
    (pf : Application.Platform) (a : Application.AppState)
    (key : string) (p : Provider) (k : Wallet) (r : Relay) :
  Application.WALLET_PRIVATE_KEY pf = Some key ->
  key <> EmptyString ->
  key <> Application.placeholderKey ->
  Application.newExecutor pf (rpcUrlOf pf) key = Ok (p, k) ->
  Application.createRelay pf p k = Ok r ->
  let x := {| provider := p; flashbotsProvider := r; wallet := k |} in
  exists a' lines,
    Application.initializeFlashbots pf a = (Ok tt, a')
    /\ Application.flashbotsExecutor a' = Application.Initialized x
    /\ Application.timers a' = Application.timers a ++ [5000]
    /\ Application.world a'
       = cycleWorld x
           (emit (Logged info "Flashbots provider initialized" None)
              (Application.world a))
    /\ Application.journal a'
       = Application.journal a
         ++ [Application.AppLogged Application.app_info
               "Flashbots MEV executor initialized" None]
         ++ lines ++ [Application.TimerArmed 5000]
    /\ timersArmed lines = [].
Proof.
  intros Hkey Hne Hph Hnew Hrelay x.
  assert (Hu : usableKey pf = Some key)
    by (apply usableKey_Some; repeat split; assumption).
  pose proof (start_outcome pf a) as H. rewrite Hu, Hnew, Hrelay in H.
  rewrite H.
  match goal with
  | |- context [Application.mevScanLoop ?s] =>
      pose proof (mevScanLoop_outcome s) as Hloop
  end.
  cbn [Application.flashbotsExecutor Application.executorOf] in Hloop.
  destruct Hloop as (lines & Hlines & ->).
  eexists _, lines. split; [reflexivity|].
  cbn [Application.flashbotsExecutor Application.timers Application.world
       Application.journal].
  repeat split.
  - rewrite <- app_assoc. reflexivity.
  - apply timersArmed_log_lines. exact Hlines.
Qed.

Lemma start_runs_first_cycle_witness :
  (Application.WALLET_PRIVATE_KEY Deployment.platform = Some "0xkey"%string
   /\ "0xkey"%string <> EmptyString
   /\ "0xkey"%string <> Application.placeholderKey
   /\ Application.newExecutor Deployment.platform
        (rpcUrlOf Deployment.platform) "0xkey"
      = Ok (Scenario.chain, Scenario.signer)
   /\ Application.createRelay Deployment.platform Scenario.chain Scenario.signer
      = Ok Scenario.relay)
  /\ exists a' lines,
      Application.initializeFlashbots Deployment.platform Deployment.boot
      = (Ok tt, a')
      /\ Application.flashbotsExecutor a'
         = Application.Initialized Scenario.executor
      /\ Application.timers a' = Application.timers Deployment.boot ++ [5000]
      /\ Application.world a'
         = cycleWorld Scenario.executor
             (emit (Logged info "Flashbots provider initialized" None)
                (Application.world Deployment.boot))
      /\ Application.journal a'
         = Application.journal Deployment.boot
           ++ [Application.AppLogged Application.app_info
                 "Flashbots MEV executor initialized" None]
           ++ lines ++ [Application.TimerArmed 5000]
      /\ timersArmed lines = [].
Proof.
  split; [repeat split; try reflexivity; discriminate|].
  apply (start_runs_first_cycle Deployment.platform Deployment.boot "0xkey"
           Scenario.chain Scenario.signer Scenario.relay
           eq_refl ltac:(discriminate) ltac:(discriminate) eq_refl eq_refl).
Defined.

(** The concrete start: the first cycle runs its scan, sends nothing, and one
    timer is armed. *)
Example start_in_the_scenario :
  trace (Application.world
           (snd (Application.initializeFlashbots Deployment.platform
                   Deployment.boot)))
  = [Logged info "Flashbots provider initialized" None;
     Rpc eth_getBlockByNumber_pending; scanFailedLine]
  /\ Application.timers
       (snd (Application.initializeFlashbots Deployment.platform Deployment.boot))
     = [5000].
Proof. split; vm_compute; reflexivity. Qed.

(** ** What the application sends *)







(** ** What the application does on the chain and relay side *)

Lemma scanOnlyEvent_quiet (evs : list Event) :
  Forall scanOnlyEvent evs ->
  bundlesSent evs = [] /\ signRequests evs = [] /\ inclusionWaits evs = O
  /\ Forall (fun m => m = eth_getBlockByNumber_pending) (rpcs evs).
Proof.
  induction 1 as [|ev evs Hev _ (IHb & IHs & IHw & IHr)];
    [repeat split; constructor|].
  unfold bundlesSent, signRequests, inclusionWaits, rpcs in *.
  destruct ev; cbn in Hev; try contradiction; cbn; auto.
Qed.

Lemma cycleWorld_scans (x : FlashbotsMEVExecutor) (w : World) :
  exists evs,
    trace (cycleWorld x w) = trace w ++ evs
    /\ Forall scanOnlyEvent evs
    /\ List.length (rpcs evs) = 1%nat.
Proof.
  rewrite cycleWorld_scan, scanMEVOpportunities_run. cbn [snd trace].
  exists (Rpc eth_getBlockByNumber_pending :: scanLines x w).
  split; [reflexivity|].
  destruct (scanLines_cases x w) as [-> | [e ->]];
    (split; [repeat constructor | reflexivity]).
Qed.

Lemma mevScanLoop_scans (a : Application.AppState) :
  exists a' evs,
    Application.mevScanLoop a = (Ok tt, a')
    /\ trace (Application.world a') = trace (Application.world a) ++ evs
    /\ Forall scanOnlyEvent evs
    /\ (List.length (rpcs evs) <= 1)%nat.
Proof.
  pose proof (mevScanLoop_outcome a) as H.
  destruct (Application.executorOf (Application.flashbotsExecutor a)) as [x|].
  - destruct H as (lines & _ & ->).
    destruct (cycleWorld_scans x (Application.world a))
      as (evs & Htrace & Hevs & Hlen).
    eexists _, evs. split; [reflexivity|]. cbn [Application.world].
    repeat split; try assumption. lia.
  - exists a, []. rewrite app_nil_r. split; [exact H|].
    repeat split; cbn; first [lia | constructor].
Qed.

Lemma runTimers_scans (n : nat) :
  forall a,
    exists a' evs,
      Application.runTimers n a = (Ok tt, a')
      /\ trace (Application.world a') = trace (Application.world a) ++ evs
      /\ Forall scanOnlyEvent evs
      /\ (List.length (rpcs evs) <= n)%nat.
Proof.
  induction n as [|n IH]; intros a.
  - exists a, []. rewrite app_nil_r. repeat split; cbn; first [lia | constructor].
  - cbn [Application.runTimers]. unfold Application.abind.
    assert (Hfire : exists a1 evs1,
               Application.fireTimer a = (Ok tt, a1)
               /\ trace (Application.world a1)
                  = trace (Application.world a) ++ evs1
               /\ Forall scanOnlyEvent evs1
               /\ (List.length (rpcs evs1) <= 1)%nat).
    { unfold Application.fireTimer.
      destruct (Application.timers a) as [|d rest].
      - exists a, []. rewrite app_nil_r.
        repeat split; cbn; first [lia | constructor].
      - match goal with
        | |- context [Application.mevScanLoop ?s] =>
            destruct (mevScanLoop_scans s) as (a1 & evs1 & Hloop & Ht & Hp & Hl)
        end.
        exists a1, evs1. cbn [Application.world] in *.
        repeat split; assumption. }
    destruct Hfire as (a1 & evs1 & Hfire & Ht1 & Hp1 & Hl1).
    rewrite Hfire.
    destruct (IH a1) as (a' & evs2 & Hrun & Ht2 & Hp2 & Hl2).
    exists a', (evs1 ++ evs2). split; [exact Hrun|].
    split; [rewrite Ht2, Ht1, app_assoc; reflexivity|].
    split; [apply Forall_app; split; assumption|].
    rewrite rpcs_app, length_app. lia.
Qed.

(** X21. The application hands nothing to the wallet or to the relay:
    whatever the configuration, the chain client, the wallet and the relay
    do, starting the application and letting any number n of timers fire
    never throws, signs no transaction, sends no bundle and waits for no
    inclusion; the only queries are pending-block queries, at most n + 1 of
    them. *)
Theorem application_never_signs_or_sends
    (pf : Application.Platform) (a : Application.AppState) (n : nat) :
  exists a' evs,
    Application.abind (Application.initializeFlashbots pf)
      (fun _ => Application.runTimers n) a = (Ok tt, a')
    /\ trace (Application.world a') = trace (Application.world a) ++ evs
    /\ bundlesSent evs = []
    /\ signRequests evs = []
    /\ inclusionWaits evs = O
    /\ Forall (fun m => m = eth_getBlockByNumber_pending) (rpcs evs)
    /\ (List.length (rpcs evs) <= S n)%nat.
Proof.
  assert (Hstart : exists a1 evs1,
             Application.initializeFlashbots pf a = (Ok tt, a1)
             /\ trace (Application.world a1)
                = trace (Application.world a) ++ evs1
             /\ Forall scanOnlyEvent evs1
             /\ (List.length (rpcs evs1) <= 1)%nat).
  { pose proof (start_outcome pf a) as H.
    destruct (usableKey pf) as [key|].
    - destruct (Application.newExecutor pf (rpcUrlOf pf) key) as [[p k]|e].
      + destruct (Application.createRelay pf p k) as [r|e].
        * match type of H with
          | _ = Application.mevScanLoop ?s =>
              destruct (mevScanLoop_scans s) as (a1 & evs1 & Hloop & Ht & Hp & Hl)
          end.
          rewrite H, Hloop.
          exists a1, (Logged info "Flashbots provider initialized" None :: evs1).
          cbn [Application.world emit trace] in *.
          split; [reflexivity|].
          split; [rewrite Ht, <- app_assoc; reflexivity|].
          split; [constructor; [exact I | exact Hp]|].
          cbn [rpcs flat_map app]. fold (rpcs evs1). exact Hl.
        * rewrite H. eexists _, [_]. split; [reflexivity|].
          cbn [Application.world emit trace].
          repeat split; cbn; first [lia | repeat constructor].
      + rewrite H. eexists _, []. split; [reflexivity|].
        unfold inWorld. cbn [Application.world].
        rewrite app_nil_r. repeat split; cbn; first [lia | constructor].
    - rewrite H. eexists _, []. split; [reflexivity|].
      unfold inWorld. cbn [Application.world].
      rewrite app_nil_r. repeat split; cbn; first [lia | constructor]. }
  destruct Hstart as (a1 & evs1 & Hstart & Ht1 & Hp1 & Hl1).
  unfold Application.abind. rewrite Hstart.
  destruct (runTimers_scans n a1) as (a' & evs2 & Hrun & Ht2 & Hp2 & Hl2).
  exists a', (evs1 ++ evs2). split; [exact Hrun|].
  split; [rewrite Ht2, Ht1, app_assoc; reflexivity|].
  assert (Hall : Forall scanOnlyEvent (evs1 ++ evs2))
    by (apply Forall_app; split; assumption).
  destruct (scanOnlyEvent_quiet _ Hall) as (Hb & Hs & Hw & Hr).
  repeat split; try assumption.
  rewrite rpcs_app, length_app. lia.
Qed.

(** The concrete deployment: the start and two timer firings issue three
    pending-block queries, each scan ends at the first pending transaction,
    and no bundle is sent. *)
Example three_cycles_in_the_scenario :
  trace (Application.world
           (snd (Application.abind
                   (Application.initializeFlashbots Deployment.platform)
                   (fun _ => Application.runTimers 2) Deployment.boot)))
  = [Logged info "Flashbots provider initialized" None;
     Rpc eth_getBlockByNumber_pending; scanFailedLine;
     Rpc eth_getBlockByNumber_pending; scanFailedLine;
     Rpc eth_getBlockByNumber_pending; scanFailedLine].
Proof. vm_compute. reflexivity. Qed.
